(** * Symbol tools of serena: a shallow embedding and its properties

    The development follows [src/serena/tools/symbol_tools.py].  Python
    values are embedded as a JSON-like tree, exceptions as an error
    monad, and the calls to the symbol retriever as an event trace. *)

From Stdlib Require Import ZArith List String Ascii Bool Lia DecimalString.
Import ListNotations.
Open Scope string_scope.
Open Scope Z_scope.

(** ** Python values *)

(** The loosely typed payloads ([dict[str, Any]], [Any]) that the tools
    pass around.  A [dict] keeps insertion order, as Python's does; its
    keys are strings.  An [IntEnum] member is represented by its integer
    value.  Floats, tuples and sets do not occur in the payloads and are
    left out. *)
#[warnings="-register-all"]
Inductive pyval : Type :=
| PNone
| PBool (b : bool)
| PInt (z : Z)
| PStr (s : string)
| PList (items : list pyval)
| PDict (entries : list (string * pyval)).

Definition pydict : Type := list (string * pyval).

(** Structural induction that reaches below list items and dict values. *)
Section PyvalInduction.
Variable P : pyval -> Prop.
Hypothesis HNone : P PNone.
Hypothesis HBool : forall b, P (PBool b).
Hypothesis HInt : forall z, P (PInt z).
Hypothesis HStr : forall s, P (PStr s).
Hypothesis HList : forall items, Forall P items -> P (PList items).
Hypothesis HDict : forall entries, Forall (fun kv => P (snd kv)) entries -> P (PDict entries).

Fixpoint pyval_nested_ind (v : pyval) : P v :=
  match v with
  | PNone => HNone
  | PBool b => HBool b
  | PInt z => HInt z
  | PStr s => HStr s
  | PList items =>
      HList items
        (list_ind (Forall P) (Forall_nil P)
           (fun x xs IH => Forall_cons x (pyval_nested_ind x) IH) items)
  | PDict entries =>
      HDict entries
        (list_ind (Forall (fun kv => P (snd kv))) (Forall_nil _)
           (fun kv kvs IH => Forall_cons kv (pyval_nested_ind (snd kv)) IH) entries)
  end.
End PyvalInduction.

(** ** Exceptions *)

(** The exceptions the module's own statements and Python's built-in
    operations raise, and [CollaboratorError] for whatever a collaborator
    (retriever, project, language server, library call) raises. *)
Inductive exn : Type :=
| KeyError (key : string)
| TypeError
| AttributeError
| ValueError
| AssertionError
| FileNotFoundError
| RuntimeError
| CollaboratorError (msg : string).

Inductive res (A : Type) : Type :=
| Ok (a : A)
| Raise (e : exn).
Arguments Ok {A} a.
Arguments Raise {A} e.

Definition rbind {A B : Type} (m : res A) (k : A -> res B) : res B :=
  match m with
  | Ok a => k a
  | Raise e => Raise e
  end.

Declare Scope res_scope.
Delimit Scope res_scope with res.
Notation "x <- m ;; k" := (rbind m (fun x => k))
  (at level 61, m at next level, right associativity) : res_scope.
Open Scope res_scope.

(** ** Dictionary primitives *)

Fixpoint dict_get (k : string) (d : pydict) : option pyval :=
  match d with
  | [] => None
  | (k', v) :: d' => if String.eqb k k' then Some v else dict_get k d'
  end.

(** [d.get(k)] on a dict *)
Definition dict_get_none (k : string) (d : pydict) : pyval :=
  match dict_get k d with Some v => v | None => PNone end.

(** [d.get(k, default)] on a dict *)
Definition dict_get_or (k : string) (d : pydict) (default : pyval) : pyval :=
  match dict_get k d with Some v => v | None => default end.

(** [d[k] = v]: an existing key keeps its position, a new key goes last. *)
Fixpoint dict_set (k : string) (v : pyval) (d : pydict) : pydict :=
  match d with
  | [] => [(k, v)]
  | (k', v') :: d' =>
      if String.eqb k k' then (k, v) :: d' else (k', v') :: dict_set k v d'
  end.

(** [d.pop(k, None)], result discarded. *)
Definition dict_pop (k : string) (d : pydict) : pydict :=
  filter (fun kv => negb (String.eqb k (fst kv))) d.

(** [d.pop(k)]: raises when the key is missing. *)
Definition dict_pop_strict (k : string) (d : pydict) : res pydict :=
  match dict_get k d with
  | Some _ => Ok (dict_pop k d)
  | None => Raise (KeyError k)
  end.

Definition has_key (k : string) (d : pydict) : bool :=
  match dict_get k d with Some _ => true | None => false end.

(** ** Built-in operations on values *)

(** [bool(v)] *)
Definition py_truthy (v : pyval) : bool :=
  match v with
  | PNone => false
  | PBool b => b
  | PInt z => negb (z =? 0)
  | PStr s => negb (String.eqb s "")
  | PList items => match items with [] => false | _ => true end
  | PDict entries => match entries with [] => false | _ => true end
  end.

Definition is_none (v : pyval) : bool :=
  match v with PNone => true | _ => false end.

(** [o.get(k)] and [o.get(k, default)]: only a dict has [get]. *)
Definition py_get_default (o : pyval) (k : string) (default : pyval) : res pyval :=
  match o with
  | PDict d => Ok (match dict_get k d with Some v => v | None => default end)
  | _ => Raise AttributeError
  end.

Definition py_get (o : pyval) (k : string) : res pyval :=
  py_get_default o k PNone.

(** [o[k]] with a string key. *)
Definition py_getitem (o : pyval) (k : string) : res pyval :=
  match o with
  | PDict d =>
      match dict_get k d with
      | Some v => Ok v
      | None => Raise (KeyError k)
      end
  | _ => Raise TypeError
  end.

(** [v + 1] *)
Definition py_add1 (v : pyval) : res Z :=
  match v with
  | PInt z => Ok (z + 1)
  | PBool b => Ok ((if b then 1 else 0) + 1)
  | _ => Raise TypeError
  end.

(** Decimal rendering of an integer, as [str] and f-strings do. *)
Definition str_of_Z (z : Z) : string :=
  NilZero.string_of_int (Z.to_int z).

Definition newline : string := String (ascii_of_nat 10) "".

(** ** Range formatter *)

Definition _format_range (rng : pyval) : res string :=
  start <- py_getitem rng "start" ;;
  end_ <- py_getitem rng "end" ;;
  sl <- (x <- py_getitem start "line" ;; py_add1 x) ;;
  sc <- (x <- py_getitem start "character" ;; py_add1 x) ;;
  el <- (x <- py_getitem end_ "line" ;; py_add1 x) ;;
  ec <- (x <- py_getitem end_ "character" ;; py_add1 x) ;;
  Ok (str_of_Z sl ++ ":" ++ str_of_Z sc ++ "-" ++ str_of_Z el ++ ":" ++ str_of_Z ec).

(** ** Symbol sanitizer *)

(** [rng = d.get("range")] followed by
    [if rng: d["range"] = _format_range(rng)], as both the sanitizer and
    the serializer have it. *)
Definition format_range_field (d : pydict) : res pydict :=
  let rng := dict_get_none "range" d in
  if py_truthy rng
  then r <- _format_range rng ;; Ok (dict_set "range" (PStr r) d)
  else Ok d.

Definition _sanitize_symbol_dict (symbol_dict : pydict) : res pydict :=
  s_relative_path <- py_get (dict_get_or "location" symbol_dict (PDict [])) "relative_path" ;;
  let symbol_dict :=
    if is_none s_relative_path then symbol_dict
    else dict_set "relative_path" s_relative_path symbol_dict in
  let symbol_dict := dict_pop "location" symbol_dict in
  symbol_dict <- format_range_field symbol_dict ;;
  dict_pop_strict "name" symbol_dict.

(** ** Cleaning pass *)

(** The filter of both comprehensions:
    [v is not None and (not isinstance(v, (list, dict)) or len(v) > 0)]. *)
Definition keep (v : pyval) : bool :=
  match v with
  | PNone => false
  | PList [] => false
  | PDict [] => false
  | _ => true
  end.

Fixpoint _clean_none_and_empty (obj : pyval) : pyval :=
  match obj with
  | PDict entries =>
      PDict (filter (fun kv => keep (snd kv))
               (map (fun kv => (fst kv, _clean_none_and_empty (snd kv))) entries))
  | PList items =>
      PList (filter keep (map _clean_none_and_empty items))
  | _ => obj
  end.

(** ** Symbol kinds *)

(** Modelled from the spec: [solidlsp.ls_types.SymbolKind] is imported by
    the module but not part of it.  The spec fixes 26 values and the
    docstring of [FindSymbolTool.apply] numbers them 1 to 26 in this
    order; the member names are those of the language-server protocol. *)
Inductive SymbolKind : Type :=
| File | Module_ | Namespace | Package | Class | Method | Property | Field
| Constructor | Enum | Interface | Function_ | Variable_ | Constant | String_
| Number | Boolean | Array | Object | Key | Null | EnumMember | Struct
| Event | Operator | TypeParameter.

Definition all_kinds : list SymbolKind :=
  [File; Module_; Namespace; Package; Class; Method; Property; Field;
   Constructor; Enum; Interface; Function_; Variable_; Constant; String_;
   Number; Boolean; Array; Object; Key; Null; EnumMember; Struct;
   Event; Operator; TypeParameter].

Definition SymbolKind_name (k : SymbolKind) : string :=
  match k with
  | File => "File" | Module_ => "Module" | Namespace => "Namespace"
  | Package => "Package" | Class => "Class" | Method => "Method"
  | Property => "Property" | Field => "Field" | Constructor => "Constructor"
  | Enum => "Enum" | Interface => "Interface" | Function_ => "Function"
  | Variable_ => "Variable" | Constant => "Constant" | String_ => "String"
  | Number => "Number" | Boolean => "Boolean" | Array => "Array"
  | Object => "Object" | Key => "Key" | Null => "Null"
  | EnumMember => "EnumMember" | Struct => "Struct" | Event => "Event"
  | Operator => "Operator" | TypeParameter => "TypeParameter"
  end.

(** Value lookup of the enumeration: the [n]-th member for [1 <= n <= 26]. *)
Definition SymbolKind_of_Z (n : Z) : option SymbolKind :=
  if (1 <=? n) && (n <=? 26) then nth_error all_kinds (Z.to_nat (n - 1)) else None.

(** [SymbolKind(k)]: an enumeration raises [ValueError] on an unknown value. *)
Definition SymbolKind_ctor (n : Z) : res SymbolKind :=
  match SymbolKind_of_Z n with
  | Some k => Ok k
  | None => Raise ValueError
  end.

(** ** Library functions and collaborators *)

(** Functions of the Python library whose results the module only passes
    on: [os.path], [str.splitlines], [str.lstrip], [textwrap.dedent], the
    [repr] of containers, and [dict(x)] on an [x] that is not a dict. *)
Record PyLib : Type := {
  os_path_join : string -> string -> string;
  os_path_exists : string -> bool;
  os_path_isdir : string -> bool;
  os_path_relpath : string -> string -> res string;
  str_splitlines : string -> list string;
  str_lstrip : string -> string;
  textwrap_dedent : string -> string;
  repr_container : pyval -> string;
  dict_of_iterable : pyval -> res pydict
}.

(** [str(v)] *)
Definition py_str (lib : PyLib) (v : pyval) : string :=
  match v with
  | PNone => "None"
  | PBool true => "True"
  | PBool false => "False"
  | PInt z => str_of_Z z
  | PStr s => s
  | _ => repr_container lib v
  end.

(** [dict(v)] *)
Definition py_dict (lib : PyLib) (v : pyval) : res pydict :=
  match v with
  | PDict d => Ok d
  | _ => dict_of_iterable lib v
  end.

(** [os.path.relpath(path, start)] on an arbitrary value. *)
Definition py_relpath (lib : PyLib) (path : pyval) (start : string) : res string :=
  match path with
  | PStr p => os_path_relpath lib p start
  | _ => Raise TypeError
  end.

(** The project: [retrieve_content_around_line(...)] followed by
    [to_display_string()], with the arguments [relative_file_path],
    [line], [context_lines_before], [context_lines_after]. *)
Record Project : Type := {
  project_root : string;
  retrieve_content_around_line : pyval -> pyval -> Z -> Z -> res string
}.

(** A [LanguageServerSymbol], by the members the tools use. *)
Record LanguageServerSymbol : Type := {
  symbol_name : string;
  location_relative_path : option string;
  (** [to_dict(kind, location, depth, include_body)] *)
  to_dict : bool -> bool -> Z -> bool -> res pydict
}.

Record ReferenceInSymbol : Type := {
  ref_symbol : LanguageServerSymbol;
  ref_line : Z
}.

(** The symbol retriever.  An overview entry stands for a dataclass
    instance and is represented by its [dataclasses.asdict] image. *)
Record SymbolRetriever : Type := {
  find_by_name :
    string -> option (list SymbolKind) -> option (list SymbolKind) -> bool -> string ->
    res (list LanguageServerSymbol);
  find_referencing_symbols :
    string -> string -> bool -> option (list SymbolKind) -> option (list SymbolKind) ->
    res (list ReferenceInSymbol);
  get_symbol_overview : string -> res (list (string * list pyval))
}.

Record LanguageServer : Type := {
  request_hover : string -> Z -> Z -> res pyval;
  request_definition : string -> Z -> Z -> res (list pyval);
  request_references : string -> Z -> Z -> res (list pyval);
  request_defining_symbol : string -> Z -> Z -> bool -> res pyval
}.

(** What a tool reaches through [self]. *)
Record Tool : Type := {
  project : Project;
  create_language_server_symbol_retriever : res SymbolRetriever;
  agent_is_using_language_server : bool;
  (** [get_language_server_manager_or_raise().get_language_server(path)] *)
  agent_get_language_server : string -> res LanguageServer;
  _to_output : pyval -> res string;
  _limit_length : string -> Z -> res string
}.

(** ** Calls to the symbol retriever, as a trace *)

Inductive event : Type :=
| EvCreateRetriever
| EvFindByName (name_path_pattern : string)
    (include_kinds exclude_kinds : option (list SymbolKind))
    (substring_matching : bool) (within_relative_path : string)
| EvFindReferencingSymbols (name_path relative_file_path : string) (include_body : bool)
    (include_kinds exclude_kinds : option (list SymbolKind))
| EvGetSymbolOverview (relative_path : string).

Definition is_retrieval (e : event) : bool :=
  match e with
  | EvCreateRetriever => false
  | _ => true
  end.

(** A computation that may raise and that records its retriever calls;
    the trace survives an exception. *)
Definition M (A : Type) : Type := list event -> list event * res A.

Definition mret {A : Type} (a : A) : M A := fun t => (t, Ok a).

Definition mbind {A B : Type} (m : M A) (k : A -> M B) : M B :=
  fun t =>
    match m t with
    | (t', Ok a) => k a t'
    | (t', Raise e) => (t', Raise e)
    end.

Definition lift {A : Type} (r : res A) : M A := fun t => (t, r).

Definition call {A : Type} (e : event) (r : res A) : M A := fun t => ((t ++ [e])%list, r).

Definition run {A : Type} (m : M A) : list event * res A := m [].

Declare Scope m_scope.
Delimit Scope m_scope with M.
Notation "x <~ m ;; k" := (mbind m (fun x => k))
  (at level 61, m at next level, right associativity) : m_scope.

(** A list comprehension whose element expression may raise. *)
Fixpoint comprehension {A B : Type} (f : A -> res B) (l : list A) : res (list B) :=
  match l with
  | [] => Ok []
  | x :: xs => y <- f x ;; ys <- comprehension f xs ;; Ok (y :: ys)
  end.

(** [[SymbolKind(k) for k in kinds] if kinds else None] *)
Definition parse_kinds (kinds : list Z) : res (option (list SymbolKind)) :=
  match kinds with
  | [] => Ok None
  | _ => ks <- comprehension SymbolKind_ctor kinds ;; Ok (Some ks)
  end.

(** The [for x in xs: ...; acc.append(y)] loops of the module. *)
Fixpoint for_append {A B : Type} (body : A -> res B) (l : list A) (acc : list B)
  : res (list B) :=
  match l with
  | [] => Ok acc
  | x :: xs => y <- body x ;; for_append body xs (acc ++ [y])%list
  end.

(** [sep.join(parts)]: every part has to be a string. *)
Definition str_join (sep : string) (parts : list pyval) : res string :=
  ss <- comprehension
          (fun p => match p with PStr s => Ok s | _ => Raise TypeError end) parts ;;
  Ok (String.concat sep ss).

(** ** Symbol serializer of the defining-symbol query *)

(** The label written into [kind]: the member's name, or [str] of a value
    that is no member. *)
Definition kind_label (lib : PyLib) (kind_value : pyval) (n : Z) : string :=
  match SymbolKind_of_Z n with
  | Some k => SymbolKind_name k
  | None => py_str lib kind_value
  end.

(** The body text: first line stripped, the rest dedented as a block. *)
Definition serialize_body (lib : PyLib) (body : string) : option string :=
  match str_splitlines lib body with
  | [] => None
  | first :: rest_lines =>
      let first_line := str_lstrip lib first in
      match rest_lines with
      | [] => Some first_line
      | _ =>
          let rest := textwrap_dedent lib (String.concat newline rest_lines) in
          Some (first_line ++ newline ++ rest)
      end
  end.

(** The [location] rewriting: a ["path:range"] string, or the location
    dict with [uri] and [absolutePath] dropped when a relative path is
    there. *)
Definition serialize_location (lib : PyLib) (location : pyval) : res pyval :=
  loc_dict <- py_dict lib location ;;
  let path := dict_get_none "relativePath" loc_dict in
  let path := if py_truthy path then path else dict_get_none "uri" loc_dict in
  let loc_rng := dict_get_none "range" loc_dict in
  if py_truthy path && py_truthy loc_rng then
    r <- _format_range loc_rng ;;
    Ok (PStr (py_str lib path ++ ":" ++ r))
  else
    Ok (PDict (if py_truthy (dict_get_none "relativePath" loc_dict)
               then dict_pop "absolutePath" (dict_pop "uri" loc_dict)
               else loc_dict)).

(** [kind], when an integer, rendered as its label. *)
Definition serialize_kind (lib : PyLib) (serialized : pydict) : pydict :=
  match dict_get_none "kind" serialized with
  | PInt z as kind_value =>
      dict_set "kind" (PStr (kind_label lib kind_value z)) serialized
  | PBool b as kind_value =>
      dict_set "kind" (PStr (kind_label lib kind_value (if b then 1 else 0))) serialized
  | _ => serialized
  end.

Definition serialize_location_field (lib : PyLib) (serialized : pydict) : res pydict :=
  let location := dict_get_none "location" serialized in
  if is_none location then Ok serialized
  else loc <- serialize_location lib location ;; Ok (dict_set "location" loc serialized).

Definition serialize_body_field (lib : PyLib) (serialized : pydict) : pydict :=
  match dict_get_none "body" serialized with
  | PStr body =>
      match serialize_body lib body with
      | Some b => dict_set "body" (PStr b) serialized
      | None => serialized
      end
  | _ => serialized
  end.

Definition set_children (children : option (list pyval)) (serialized : pydict) : pydict :=
  match children with
  | Some cs => dict_set "children" (PList cs) serialized
  | None => serialized
  end.

Fixpoint _serialize_symbol (lib : PyLib) (symbol : pyval) {struct symbol} : res pyval :=
  match symbol with
  | PDict entries =>
      let serialized :=
        dict_pop "selectionRange" (dict_pop "glyph" (dict_pop "parent" entries)) in
      let serialized := serialize_kind lib serialized in
      (* children = serialized.get("children"), serialized where it is a list *)
      children <-
        (fix find (l : pydict) : res (option (list pyval)) :=
           match l with
           | [] => Ok None
           | (k, c) :: l' =>
               if String.eqb "children" k then
                 match c with
                 | PList items =>
                     cs <- comprehension (_serialize_symbol lib) items ;; Ok (Some cs)
                 | _ => Ok None
                 end
               else find l'
           end) entries ;;
      let serialized := set_children children serialized in
      serialized <- format_range_field serialized ;;
      serialized <- serialize_location_field lib serialized ;;
      Ok (PDict (serialize_body_field lib serialized))
  | PList _ => Raise TypeError
  | _ => Raise AttributeError
  end.

(** ** Hover *)

(** One turn of the loop over a list of hover contents: a string is
    appended as it is, a dict by its [value] (or its [str] when it has
    none), anything else is skipped. *)
Definition append_part (lib : PyLib) (parts : list pyval) (part : pyval) : list pyval :=
  match part with
  | PStr _ => (parts ++ [part])%list
  | PDict d => (parts ++ [dict_get_or "value" d (PStr (py_str lib part))])%list
  | _ => parts
  end.

(** The part of [GetHoverInfoTool.apply] that follows the request. *)
Definition hover_text (lib : PyLib) (result : pyval) : res pyval :=
  if is_none result then Ok (PStr "No hover information available.") else
  contents <- py_get result "contents" ;;
  if negb (py_truthy contents) then Ok (PStr "No content in hover result.") else
  match contents with
  | PStr _ => Ok contents
  | PDict d => Ok (dict_get_or "value" d (PStr (py_str lib contents)))
  | PList items =>
      let parts := fold_left (append_part lib) items [] in
      s <- str_join (newline ++ newline) parts ;;
      Ok (PStr s)
  | _ => Ok (PStr (py_str lib contents))
  end.

Definition _get_language_server (self : Tool) (relative_path : string) : res LanguageServer :=
  if negb (agent_is_using_language_server self) then Raise RuntimeError
  else agent_get_language_server self relative_path.

Definition GetHoverInfoTool_apply (lib : PyLib) (self : Tool)
    (relative_path : string) (line character : Z) : res pyval :=
  ls <- _get_language_server self relative_path ;;
  result <- request_hover ls relative_path line character ;;
  hover_text lib result.

(** ** Entry builders *)

(** One turn of the loop of [_format_definition_entries]. *)
Definition definition_entry (lib : PyLib) (project_root : string) (project : Project)
    (definition : pyval) : res pyval :=
  definition_path <- py_get definition "relativePath" ;;
  absolute_definition_path <- py_get definition "absolutePath" ;;
  definition_path <-
    (if is_none definition_path && negb (is_none absolute_definition_path)
     then p <- py_relpath lib absolute_definition_path project_root ;; Ok (PStr p)
     else Ok definition_path) ;;
  snippet <-
    (if negb (is_none definition_path) then
       rng <- py_getitem definition "range" ;;
       start <- py_getitem rng "start" ;;
       line <- py_getitem start "line" ;;
       display <- retrieve_content_around_line project definition_path line 2 2 ;;
       Ok (PStr display)
     else Ok PNone) ;;
  rng <- py_get definition "range" ;;
  formatted_range <-
    (if py_truthy rng then r <- _format_range rng ;; Ok (PStr r) else Ok PNone) ;;
  let entry :=
    [("relative_path", definition_path); ("range", formatted_range); ("snippet", snippet)] in
  entry <- (if is_none definition_path
            then uri <- py_get definition "uri" ;; Ok (dict_set "uri" uri entry)
            else Ok entry) ;;
  Ok (PDict entry).

Definition _format_definition_entries (lib : PyLib) (definitions : list pyval)
    (project_root : string) (project : Project) : res (list pyval) :=
  for_append (definition_entry lib project_root project) definitions [].

(** One turn of the loop of [_format_reference_entries]. *)
Definition reference_entry (lib : PyLib) (project_root : string) (project : Project)
    (ref : pyval) : res pyval :=
  ref_path <- py_get ref "relativePath" ;;
  absolute_ref_path <- py_get ref "absolutePath" ;;
  ref_path <-
    (if is_none ref_path && negb (is_none absolute_ref_path)
     then p <- py_relpath lib absolute_ref_path project_root ;; Ok (PStr p)
     else Ok ref_path) ;;
  snippet <-
    (if negb (is_none ref_path) then
       rng <- py_get ref "range" ;;
       if py_truthy rng then
         start <- py_getitem rng "start" ;;
         line <- py_getitem start "line" ;;
         display <- retrieve_content_around_line project ref_path line 2 2 ;;
         Ok (PStr display)
       else Ok PNone
     else Ok PNone) ;;
  rng <- py_get ref "range" ;;
  formatted_range <-
    (if py_truthy rng then r <- _format_range rng ;; Ok (PStr r) else Ok PNone) ;;
  let entry :=
    [("relative_path", ref_path); ("range", formatted_range); ("snippet", snippet)] in
  entry <- (if is_none ref_path
            then uri <- py_get ref "uri" ;; Ok (dict_set "uri" uri entry)
            else Ok entry) ;;
  Ok (PDict entry).

Definition _format_reference_entries (lib : PyLib) (references : list pyval)
    (project_root : string) (project : Project) : res (list pyval) :=
  for_append (reference_entry lib project_root project) references [].

(** ** The tools *)

Fixpoint assoc_get {A : Type} (k : string) (l : list (string * A)) : option A :=
  match l with
  | [] => None
  | (k', v) :: l' => if String.eqb k k' then Some v else assoc_get k l'
  end.

Open Scope m_scope.

Definition GetSymbolsOverviewTool_apply (lib : PyLib) (self : Tool)
    (relative_path : string) (max_answer_chars : Z) : M string :=
  symbol_retriever <~ call EvCreateRetriever (create_language_server_symbol_retriever self) ;;
  let file_path := os_path_join lib (project_root (project self)) relative_path in
  if negb (os_path_exists lib file_path) then lift (Raise FileNotFoundError)
  else if os_path_isdir lib file_path then lift (Raise ValueError)
  else
    overview <~ call (EvGetSymbolOverview relative_path)
                     (get_symbol_overview symbol_retriever relative_path) ;;
    result <~ lift (match assoc_get relative_path overview with
                    | Some r => Ok r
                    | None => Raise (KeyError relative_path)
                    end) ;;
    result_str <~ lift (_to_output self (PList result)) ;;
    lift (_limit_length self result_str max_answer_chars).

(** The list [symbol_dicts] that [FindSymbolTool.apply] hands to [_to_output]. *)
Definition FindSymbolTool_symbol_dicts (self : Tool)
    (name_path_pattern : string) (depth : Z) (relative_path : string) (include_body : bool)
    (include_kinds exclude_kinds : list Z) (substring_matching : bool) : M (list pydict) :=
  parsed_include_kinds <~ lift (parse_kinds include_kinds) ;;
  parsed_exclude_kinds <~ lift (parse_kinds exclude_kinds) ;;
  symbol_retriever <~ call EvCreateRetriever (create_language_server_symbol_retriever self) ;;
  symbols <~ call (EvFindByName name_path_pattern parsed_include_kinds parsed_exclude_kinds
                     substring_matching relative_path)
                  (find_by_name symbol_retriever name_path_pattern parsed_include_kinds
                     parsed_exclude_kinds substring_matching relative_path) ;;
  lift (comprehension
          (fun s => d <- to_dict s true true depth include_body ;; _sanitize_symbol_dict d)
          symbols).

Definition FindSymbolTool_apply (self : Tool)
    (name_path_pattern : string) (depth : Z) (relative_path : string) (include_body : bool)
    (include_kinds exclude_kinds : list Z) (substring_matching : bool)
    (max_answer_chars : Z) : M string :=
  symbol_dicts <~ FindSymbolTool_symbol_dicts self name_path_pattern depth relative_path
                    include_body include_kinds exclude_kinds substring_matching ;;
  result <~ lift (_to_output self (PList (map PDict symbol_dicts))) ;;
  lift (_limit_length self result max_answer_chars).

(** One turn of the loop of [FindReferencingSymbolsTool.apply]. *)
Definition reference_dict (self : Tool) (include_body : bool) (ref : ReferenceInSymbol)
  : res pydict :=
  (ref_dict <- to_dict (ref_symbol ref) true true 0 include_body ;;
   ref_dict <- _sanitize_symbol_dict ref_dict ;;
   if negb include_body then
     match location_relative_path (ref_symbol ref) with
     | None => Raise AssertionError
     | Some ref_relative_path =>
         content_around_ref <-
           retrieve_content_around_line (project self)
             (PStr ref_relative_path) (PInt (ref_line ref)) 1 1 ;;
         Ok (dict_set "content_around_reference" (PStr content_around_ref) ref_dict)
     end
   else Ok ref_dict)%res.

(** The list [reference_dicts] that [FindReferencingSymbolsTool.apply]
    hands to [_to_output]. *)
Definition FindReferencingSymbolsTool_reference_dicts (self : Tool)
    (name_path relative_path : string) (include_kinds exclude_kinds : list Z)
  : M (list pydict) :=
  let include_body := false in
  parsed_include_kinds <~ lift (parse_kinds include_kinds) ;;
  parsed_exclude_kinds <~ lift (parse_kinds exclude_kinds) ;;
  symbol_retriever <~ call EvCreateRetriever (create_language_server_symbol_retriever self) ;;
  references_in_symbols <~
    call (EvFindReferencingSymbols name_path relative_path include_body
            parsed_include_kinds parsed_exclude_kinds)
         (find_referencing_symbols symbol_retriever name_path relative_path include_body
            parsed_include_kinds parsed_exclude_kinds) ;;
  lift (for_append (reference_dict self include_body) references_in_symbols []).

Definition FindReferencingSymbolsTool_apply (self : Tool)
    (name_path relative_path : string) (include_kinds exclude_kinds : list Z)
    (max_answer_chars : Z) : M string :=
  reference_dicts <~ FindReferencingSymbolsTool_reference_dicts self name_path relative_path
                       include_kinds exclude_kinds ;;
  result <~ lift (_to_output self (PList (map PDict reference_dicts))) ;;
  lift (_limit_length self result max_answer_chars).

Close Scope m_scope.

Definition GetDefinitionLocationsTool_apply (lib : PyLib) (self : Tool)
    (relative_path : string) (line character max_answer_chars : Z) : res string :=
  ls <- _get_language_server self relative_path ;;
  definitions <- request_definition ls relative_path line character ;;
  definition_entries <-
    _format_definition_entries lib definitions (project_root (project self)) (project self) ;;
  payload <- _to_output self (_clean_none_and_empty (PList definition_entries)) ;;
  _limit_length self payload max_answer_chars.

Definition GetReferenceLocationsTool_apply (lib : PyLib) (self : Tool)
    (relative_path : string) (line character max_answer_chars : Z) : res string :=
  ls <- _get_language_server self relative_path ;;
  references <- request_references ls relative_path line character ;;
  reference_entries <-
    _format_reference_entries lib references (project_root (project self)) (project self) ;;
  payload <- _to_output self (_clean_none_and_empty (PList reference_entries)) ;;
  _limit_length self payload max_answer_chars.

(** The payload that [GetDefiningSymbolTool.apply] cleans and hands to
    [_to_output]. *)
Definition GetDefiningSymbolTool_payload (lib : PyLib) (self : Tool)
    (relative_path : string) (line character : Z) (include_body : bool) : res pyval :=
  ls <- _get_language_server self relative_path ;;
  symbol <- request_defining_symbol ls relative_path line character include_body ;;
  definitions <- request_definition ls relative_path line character ;;
  definition_entries <-
    _format_definition_entries lib definitions (project_root (project self)) (project self) ;;
  serialized <- (if is_none symbol then Ok PNone else _serialize_symbol lib symbol) ;;
  let payload := [("symbol", serialized); ("definitions", PList definition_entries)] in
  let payload :=
    if is_none symbol
    then dict_set "error" (PStr "No defining symbol found.") payload
    else payload in
  Ok (PDict payload).

Definition GetDefiningSymbolTool_apply (lib : PyLib) (self : Tool)
    (relative_path : string) (line character : Z) (include_body : bool)
    (max_answer_chars : Z) : res string :=
  payload <- GetDefiningSymbolTool_payload lib self relative_path line character include_body ;;
  output_payload <- _to_output self (_clean_none_and_empty payload) ;;
  _limit_length self output_payload max_answer_chars.

(** ** Predicates used in the statements *)


(** The scalars of a structure other than [None], in traversal order,
    each with the dict keys that lead to it. *)
Fixpoint leaves (v : pyval) : list (list string * pyval) :=
  match v with
  | PNone => []
  | PList items => flat_map leaves items
  | PDict entries =>
      flat_map (fun kv => map (fun pl => (fst kv :: fst pl, snd pl)) (leaves (snd kv))) entries
  | _ => [([], v)]
  end.

Definition is_str (v : pyval) : bool :=
  match v with PStr _ => true | _ => false end.





(** A raw location on which both builders take the same path: no path
    is resolved, or the range is there and not empty. *)
Definition path_has_range (raw : pyval) : bool :=
  match raw with
  | PDict d =>
      (is_none (dict_get_none "relativePath" d) && is_none (dict_get_none "absolutePath" d))
      || py_truthy (dict_get_none "range" d)
  | _ => true
  end.

(** The text of one entry of a hover list: a string, or the [value] of a
    marked string. *)
Definition entry_text (part : pyval) : option string :=
  match part with
  | PStr s => Some s
  | PDict d => match dict_get "value" d with Some (PStr s) => Some s | _ => None end
  | _ => None
  end.

Definition valid_kind (k : Z) : bool := (1 <=? k) && (k <=? 26).

(** A reference on which the collaborators answer: [to_dict] gives a
    dict the sanitizer accepts, and the project has a snippet for the
    symbol's path. *)
Definition answers (self : Tool) (ref : ReferenceInSymbol) : Prop :=
  (exists d d', to_dict (ref_symbol ref) true true 0 false = Ok d
                /\ _sanitize_symbol_dict d = Ok d')
  /\ forall p, location_relative_path (ref_symbol ref) = Some p ->
       exists c, retrieve_content_around_line (project self)
                   (PStr p) (PInt (ref_line ref)) 1 1 = Ok c.

(** The reference dict carries the snippet of one line of context around
    the reference. *)
Definition has_snippet (self : Tool) (ref : ReferenceInSymbol) (d : pydict) : Prop :=
  exists p c,
    location_relative_path (ref_symbol ref) = Some p
    /\ retrieve_content_around_line (project self) (PStr p) (PInt (ref_line ref)) 1 1 = Ok c
    /\ dict_get "content_around_reference" d = Some (PStr c).

(** The keys [_serialize_symbol] removes or writes. *)
Definition serializer_writes : list string :=
  ["parent"; "glyph"; "selectionRange"; "kind"; "children"; "range"; "location"; "body"].

(** What [_sanitize_symbol_dict] takes out. *)
Definition sanitized_form (d : pydict) : Prop :=
  dict_get "name" d = None /\ dict_get "location" d = None.

(** What [_serialize_symbol] takes out. *)
Definition serialized_form (d : pydict) : Prop :=
  dict_get "parent" d = None /\ dict_get "glyph" d = None
  /\ dict_get "selectionRange" d = None.

(** A serialized symbol whose descendants, reached through [children]
    lists, are serialized symbols as well. *)
#[warnings="-register-all"]
Inductive stripped : pyval -> Prop :=
| stripped_dict (d : pydict) :
    serialized_form d ->
    (forall items, dict_get "children" d = Some (PList items) -> Forall stripped items) ->
    stripped (PDict d).

(** The text a part of a hover list contributes: a string itself, a
    mapping its string [value], anything else nothing. *)
Definition part_texts (part : pyval) : list string :=
  match part with
  | PStr s => [s]
  | PDict d => match dict_get "value" d with Some (PStr s) => [s] | _ => [] end
  | _ => []
  end.

(** A part that is no mapping, or a mapping with a string [value]. *)
Definition plain_part (part : pyval) : bool :=
  match part with
  | PDict d => match dict_get "value" d with Some (PStr _) => true | _ => false end
  | _ => true
  end.

(** A mapping whose [value] is there and is no string. *)
Definition odd_part (part : pyval) : bool :=
  match part with
  | PDict d => match dict_get "value" d with Some v => negb (is_str v) | None => false end
  | _ => false
  end.

(** [raw.get("uri")] of a raw location. *)
Definition raw_uri (raw : pyval) : pyval :=
  match raw with PDict d => dict_get_none "uri" d | _ => PNone end.

(** The layout of an entry: the three fixed keys in order, then [uri]
    exactly when the path is null; a null path has no snippet. *)
Definition entry_shape (raw entry : pyval) : Prop :=
  exists path formatted_range snippet,
    entry = PDict ([("relative_path", path); ("range", formatted_range);
                    ("snippet", snippet)]
                   ++ (if is_none path then [("uri", raw_uri raw)] else []))%list
    /\ (formatted_range = PNone \/ is_str formatted_range = true)
    /\ (snippet = PNone \/ is_str snippet = true)
    /\ (is_none path = true -> snippet = PNone).

(** A raw location with nothing to show: no path, no uri, no range. *)
Definition blank_location (raw : pyval) : bool :=
  match raw with
  | PDict d =>
      is_none (dict_get_none "relativePath" d) && is_none (dict_get_none "absolutePath" d)
      && is_none (dict_get_none "uri" d) && negb (py_truthy (dict_get_none "range" d))
  | _ => false
  end.

(** ** Sample data *)

Definition position (line character : Z) : pyval :=
  PDict [("line", PInt line); ("character", PInt character)].

Definition range_of (l1 c1 l2 c2 : Z) : pyval :=
  PDict [("start", position l1 c1); ("end", position l2 c2)].

Definition sample_lib : PyLib := {|
  os_path_join := fun root rel => root ++ "/" ++ rel;
  os_path_exists := fun p => String.eqb p "/proj/a.py" || String.eqb p "/proj/pkg";
  os_path_isdir := fun p => String.eqb p "/proj/pkg";
  os_path_relpath := fun p start => Ok ("rel/" ++ p);
  str_splitlines := fun s => [s];
  str_lstrip := fun s => s;
  textwrap_dedent := fun s => s;
  repr_container := fun _ => "<container>";
  dict_of_iterable := fun _ => Raise TypeError
|}.

Definition sample_project : Project := {|
  project_root := "/proj";
  retrieve_content_around_line := fun path line before after => Ok "snippet"
|}.

Definition sample_symbol (name : string) (path : option string) : LanguageServerSymbol := {|
  symbol_name := name;
  location_relative_path := path;
  to_dict := fun kind location depth include_body =>
    Ok [("name", PStr name); ("name_path", PStr name); ("kind", PStr "Function");
        ("location", PDict [("relative_path",
                             match path with Some p => PStr p | None => PNone end);
                            ("line", PInt 3)]);
        ("range", range_of 3 0 5 1)]
|}.

Definition sample_refs : list ReferenceInSymbol :=
  [ {| ref_symbol := sample_symbol "caller" (Some "b.py"); ref_line := 7 |};
    {| ref_symbol := sample_symbol "other" (Some "c.py"); ref_line := 9 |} ].

Definition sample_retriever : SymbolRetriever := {|
  find_by_name := fun pattern incl excl substring within =>
    Ok [sample_symbol "f" (Some "a.py")];
  find_referencing_symbols := fun name_path path include_body incl excl => Ok sample_refs;
  get_symbol_overview := fun path => Ok [(path, [PDict [("name_path", PStr "f")]])]
|}.

Definition sample_raw_symbol : pyval :=
  PDict [("name", PStr "f"); ("kind", PInt 12); ("parent", PStr "<module>");
         ("selectionRange", range_of 3 4 3 5);
         ("location", PDict [("relativePath", PStr "a.py"); ("range", range_of 3 0 5 1)])].

Definition sample_server : LanguageServer := {|
  request_hover := fun path line character => Ok PNone;
  request_definition := fun path line character => Ok [];
  request_references := fun path line character => Ok [];
  request_defining_symbol := fun path line character include_body => Ok sample_raw_symbol
|}.

Definition sample_tool : Tool := {|
  project := sample_project;
  create_language_server_symbol_retriever := Ok sample_retriever;
  agent_is_using_language_server := true;
  agent_get_language_server := fun path => Ok sample_server;
  _to_output := fun v => Ok "<output>";
  _limit_length := fun s max_answer_chars => Ok s
|}.

Definition sample_locations : list pyval :=
  [ PDict [("relativePath", PStr "a.py"); ("range", range_of 0 0 0 4)];
    PDict [("uri", PStr "file:///lib/b.py"); ("range", range_of 2 0 2 4)] ].

(** A retriever that reports a referencing symbol without a path. *)
Definition unlocated_refs : list ReferenceInSymbol :=
  [ {| ref_symbol := sample_symbol "caller" (Some "b.py"); ref_line := 7 |};
    {| ref_symbol := sample_symbol "stray" None; ref_line := 2 |} ].

Definition unlocated_retriever : SymbolRetriever := {|
  find_by_name := find_by_name sample_retriever;
  find_referencing_symbols := fun name_path path include_body incl excl => Ok unlocated_refs;
  get_symbol_overview := get_symbol_overview sample_retriever
|}.

Definition unlocated_tool : Tool := {|
  project := sample_project;
  create_language_server_symbol_retriever := Ok unlocated_retriever;
  agent_is_using_language_server := true;
  agent_get_language_server := fun path => Ok sample_server;
  _to_output := fun v => Ok "<output>";
  _limit_length := fun s max_answer_chars => Ok s
|}.

(** A raw symbol with a child, both with internal keys. *)
Definition nested_raw_symbol : pyval :=
  PDict [("name", PStr "A"); ("kind", PInt 5); ("parent", PNone);
         ("children",
          PList [PDict [("name", PStr "f"); ("kind", PInt 6); ("glyph", PStr "m");
                        ("selectionRange", range_of 2 4 2 5)]])].

(** A server that finds no defining symbol and no definition. *)
Definition quiet_server : LanguageServer := {|
  request_hover := fun path line character => Ok PNone;
  request_definition := fun path line character => Ok [];
  request_references := fun path line character => Ok [];
  request_defining_symbol := fun path line character include_body => Ok PNone
|}.

Definition quiet_tool : Tool := {|
  project := sample_project;
  create_language_server_symbol_retriever := Ok sample_retriever;
  agent_is_using_language_server := true;
  agent_get_language_server := fun path => Ok quiet_server;
  _to_output := fun v => Ok "<output>";
  _limit_length := fun s max_answer_chars => Ok s
|}.

(** An agent that is not in language-server mode. *)
Definition offline_tool : Tool := {|
  project := sample_project;
  create_language_server_symbol_retriever := Ok sample_retriever;
  agent_is_using_language_server := false;
  agent_get_language_server := fun path => Ok sample_server;
  _to_output := fun v => Ok "<output>";
  _limit_length := fun s max_answer_chars => Ok s
|}.

(** * Properties *)

(** ** The error monad *)

Lemma rbind_ok {A B : Type} (m : res A) (k : A -> res B) (b : B) :
  rbind m k = Ok b -> exists a, m = Ok a /\ k a = Ok b.
Proof.
  destruct m as [a | e]; simpl; intros H.
  - exists a. split; [reflexivity | exact H].
  - discriminate H.
Qed.

Ltac bind_inv H :=
  let x := fresh "x" in
  let Hx := fresh "Hx" in
  apply rbind_ok in H; destruct H as (x & Hx & H).

Lemma comprehension_ok {A B : Type} (f : A -> res B) (l : list A) (ys : list B) :
  comprehension f l = Ok ys -> Forall2 (fun x y => f x = Ok y) l ys.
Proof.
  revert ys. induction l as [| x xs IH]; simpl; intros ys H.
  - injection H as <-. constructor.
  - bind_inv H. bind_inv H. injection H as <-.
    constructor; [assumption | apply IH; assumption].
Qed.

(** The appending loop computes the comprehension after what it started with. *)
Lemma for_append_comprehension {A B : Type} (body : A -> res B) (l : list A) (acc : list B) :
  for_append body l acc = (ys <- comprehension body l ;; Ok (acc ++ ys)%list).
Proof.
  revert acc. induction l as [| x xs IH]; simpl; intros acc.
  - now rewrite app_nil_r.
  - destruct (body x) as [y | e]; simpl; [| reflexivity].
    rewrite IH. destruct (comprehension body xs) as [ys | e]; simpl; [| reflexivity].
    now rewrite <- app_assoc.
Qed.

Lemma for_append_ok {A B : Type} (body : A -> res B) (l : list A) (ys : list B) :
  for_append body l [] = Ok ys -> Forall2 (fun x y => body x = Ok y) l ys.
Proof.
  rewrite for_append_comprehension. intros H. bind_inv H.
  simpl in H. injection H as <-. now apply comprehension_ok.
Qed.

Lemma for_append_all_ok {A B : Type} (body : A -> res B) (l : list A) :
  Forall (fun x => exists y, body x = Ok y) l ->
  exists ys, for_append body l [] = Ok ys.
Proof.
  rewrite for_append_comprehension. induction 1 as [| x xs [y Hy] _ [ys IH]]; simpl.
  - now exists [].
  - rewrite Hy. simpl. bind_inv IH. rewrite Hx. simpl. eexists. reflexivity.
Qed.

(** ** Dictionaries *)

Lemma dict_get_pop_same (k : string) (d : pydict) :
  dict_get k (dict_pop k d) = None.
Proof.
  induction d as [| [k' v] d IH]; simpl; [reflexivity |].
  destruct (String.eqb k k') eqn:E; simpl; [exact IH |].
  rewrite E. exact IH.
Qed.

Lemma dict_get_pop_other (k k' : string) (d : pydict) :
  String.eqb k k' = false -> dict_get k (dict_pop k' d) = dict_get k d.
Proof.
  intros Hne. induction d as [| [k0 v] d IH]; simpl; [reflexivity |].
  destruct (String.eqb k' k0) eqn:E; simpl.
  - apply String.eqb_eq in E. subst k0. rewrite Hne. exact IH.
  - destruct (String.eqb k k0); [reflexivity | exact IH].
Qed.

Lemma dict_get_set_same (k : string) (v : pyval) (d : pydict) :
  dict_get k (dict_set k v d) = Some v.
Proof.
  induction d as [| [k' v'] d IH]; simpl.
  - now rewrite String.eqb_refl.
  - destruct (String.eqb k k') eqn:E; simpl.
    + now rewrite String.eqb_refl.
    + now rewrite E.
Qed.

Lemma dict_get_set_other (k k' : string) (v : pyval) (d : pydict) :
  String.eqb k k' = false -> dict_get k (dict_set k' v d) = dict_get k d.
Proof.
  intros Hne. induction d as [| [k0 v0] d IH]; simpl.
  - now rewrite Hne.
  - destruct (String.eqb k' k0) eqn:E; simpl.
    + apply String.eqb_eq in E. subst k0. now rewrite Hne.
    + destruct (String.eqb k k0); [reflexivity | exact IH].
Qed.

(** Chasing a key other than the ones written or removed. *)
Ltac dict_other :=
  repeat first
    [ rewrite dict_get_set_other by reflexivity
    | rewrite dict_get_pop_other by reflexivity ].

(** ** The cleaning pass *)

Lemma keep_false_leaves (v : pyval) : keep v = false -> leaves v = [].
Proof.
  destruct v as [| b | z | s | [| x xs] | [| kv kvs]]; simpl;
    intros H; try discriminate H; reflexivity.
Qed.

Lemma flat_map_filter {A B : Type} (p : A -> bool) (g : A -> list B) (l : list A) :
  (forall x, p x = false -> g x = []) ->
  flat_map g (filter p l) = flat_map g l.
Proof.
  intros Hp. induction l as [| x xs IH]; simpl; [reflexivity |].
  destruct (p x) eqn:E; simpl.
  - now rewrite IH.
  - rewrite (Hp x E). exact IH.
Qed.

Lemma flat_map_map_ext {A B C : Type} (f : A -> B) (g : B -> list C) (h : A -> list C)
    (l : list A) :
  Forall (fun x => g (f x) = h x) l ->
  flat_map g (map f l) = flat_map h l.
Proof.
  induction 1 as [| x xs Hx _ IH]; simpl; [reflexivity |].
  now rewrite Hx, IH.
Qed.


(** C10: the cleaning pass keeps every scalar other than [None], under
    the same keys and in the same order; the empty string, the integer 0
    and [False] pass its filter like any other scalar. *)
Theorem clean_none_and_empty_keeps_scalars (obj : pyval) :
  leaves (_clean_none_and_empty obj) = leaves obj
  /\ keep (PStr "") = true /\ keep (PInt 0) = true /\ keep (PBool false) = true.
Proof.
  split; [| repeat split].
  induction obj as [| b | z | s | items IH | entries IH] using pyval_nested_ind;
    try reflexivity; simpl.
  - rewrite flat_map_filter by apply keep_false_leaves.
    now apply flat_map_map_ext.
  - rewrite flat_map_filter.
    + apply flat_map_map_ext.
      eapply Forall_impl; [| exact IH].
      intros kv Hkv. simpl. now rewrite Hkv.
    + intros kv Hkv. now rewrite (keep_false_leaves _ Hkv).
Qed.

(** ** The sanitizer and the serializer, key by key *)

Lemma format_range_field_other (k : string) (d d' : pydict) :
  format_range_field d = Ok d' -> String.eqb k "range" = false ->
  dict_get k d' = dict_get k d.
Proof.
  unfold format_range_field. intros H Hk.
  destruct (py_truthy (dict_get_none "range" d)).
  - bind_inv H. injection H as <-. now apply dict_get_set_other.
  - now injection H as <-.
Qed.

(** After the step, a range that counts as true is a formatted string. *)
Lemma format_range_field_range (d d' : pydict) :
  format_range_field d = Ok d' ->
  py_truthy (dict_get_none "range" d') = true -> is_str (dict_get_none "range" d') = true.
Proof.
  unfold format_range_field. intros H.
  destruct (py_truthy (dict_get_none "range" d)) eqn:Ht.
  - bind_inv H. injection H as <-. unfold dict_get_none.
    now rewrite dict_get_set_same.
  - injection H as <-. now rewrite Ht.
Qed.

Lemma format_range_field_formatted (d : pydict) :
  py_truthy (dict_get_none "range" d) = true -> is_str (dict_get_none "range" d) = true ->
  format_range_field d = Raise TypeError.
Proof.
  unfold format_range_field. intros -> Hs.
  destruct (dict_get_none "range" d); try discriminate Hs. reflexivity.
Qed.

Lemma sanitize_shape (s v : pydict) :
  _sanitize_symbol_dict s = Ok v ->
  dict_get "name" v = None
  /\ dict_get "location" v = None
  /\ (py_truthy (dict_get_none "range" v) = true -> is_str (dict_get_none "range" v) = true).
Proof.
  unfold _sanitize_symbol_dict. intros H.
  bind_inv H. bind_inv H. rename x0 into d.
  unfold dict_pop_strict in H.
  destruct (dict_get "name" d); [| discriminate H].
  injection H as <-.
  split; [apply dict_get_pop_same |]. split.
  - dict_other. rewrite (format_range_field_other _ _ _ Hx0) by reflexivity.
    apply dict_get_pop_same.
  - unfold dict_get_none. dict_other. exact (format_range_field_range _ _ Hx0).
Qed.

Lemma sanitize_keeps (k : string) (s v : pydict) :
  _sanitize_symbol_dict s = Ok v ->
  existsb (String.eqb k) ["relative_path"; "location"; "range"; "name"] = false ->
  dict_get k v = dict_get k s.
Proof.
  unfold _sanitize_symbol_dict. intros H Hk. simpl in Hk.
  repeat (apply orb_false_elim in Hk; destruct Hk as [? Hk]).
  bind_inv H. bind_inv H. unfold dict_pop_strict in H.
  destruct (dict_get "name" x0); [| discriminate H]. injection H as <-.
  rewrite dict_get_pop_other by assumption.
  rewrite (format_range_field_other _ _ _ Hx0) by assumption.
  rewrite dict_get_pop_other by assumption.
  destruct (is_none x); [reflexivity |]. now apply dict_get_set_other.
Qed.

Lemma serialize_kind_other (lib : PyLib) (k : string) (d : pydict) :
  String.eqb k "kind" = false -> dict_get k (serialize_kind lib d) = dict_get k d.
Proof.
  intros Hk. unfold serialize_kind.
  destruct (dict_get_none "kind" d); try reflexivity; now apply dict_get_set_other.
Qed.

Lemma set_children_other (cs : option (list pyval)) (k : string) (d : pydict) :
  String.eqb k "children" = false -> dict_get k (set_children cs d) = dict_get k d.
Proof.
  intros Hk. destruct cs; simpl; [now apply dict_get_set_other | reflexivity].
Qed.

Lemma serialize_body_field_other (lib : PyLib) (k : string) (d : pydict) :
  String.eqb k "body" = false -> dict_get k (serialize_body_field lib d) = dict_get k d.
Proof.
  intros Hk. unfold serialize_body_field.
  destruct (dict_get_none "body" d); try reflexivity.
  destruct (serialize_body lib s); [now apply dict_get_set_other | reflexivity].
Qed.

Lemma serialize_location_field_other (lib : PyLib) (k : string) (d d' : pydict) :
  serialize_location_field lib d = Ok d' -> String.eqb k "location" = false ->
  dict_get k d' = dict_get k d.
Proof.
  unfold serialize_location_field. intros H Hk.
  destruct (is_none (dict_get_none "location" d)).
  - now injection H as <-.
  - bind_inv H. injection H as <-. now apply dict_get_set_other.
Qed.

Lemma serialize_location_not_none (lib : PyLib) (location loc : pyval) :
  serialize_location lib location = Ok loc -> is_none loc = false.
Proof.
  unfold serialize_location. intros H. bind_inv H.
  destruct (_ && _).
  - bind_inv H. now injection H as <-.
  - now injection H as <-.
Qed.

(** A location that is there stays there, rewritten. *)
Lemma serialize_location_field_stays (lib : PyLib) (d d' : pydict) :
  serialize_location_field lib d = Ok d' ->
  is_none (dict_get_none "location" d) = false ->
  is_none (dict_get_none "location" d') = false.
Proof.
  unfold serialize_location_field. intros H Hl. rewrite Hl in H.
  bind_inv H. injection H as <-. unfold dict_get_none.
  rewrite dict_get_set_same. exact (serialize_location_not_none _ _ _ Hx).
Qed.


Lemma serialize_symbol_shape (lib : PyLib) (entries : pydict) (out : pyval) :
  _serialize_symbol lib (PDict entries) = Ok out ->
  exists d, out = PDict d
    /\ dict_get "parent" d = None
    /\ dict_get "glyph" d = None
    /\ dict_get "selectionRange" d = None
    /\ (forall k, existsb (String.eqb k) serializer_writes = false ->
                  dict_get k d = dict_get k entries)
    /\ (is_none (dict_get_none "location" entries) = false ->
        is_none (dict_get_none "location" d) = false).
Proof.
  intros H. cbn [_serialize_symbol] in H.
  bind_inv H. bind_inv H. bind_inv H. injection H as <-.
  rename x0 into d1, x1 into d2.
  assert (Hgen : forall k, existsb (String.eqb k) ["kind"; "children"; "range"; "location"; "body"] = false ->
            dict_get k (serialize_body_field lib d2)
            = dict_get k (dict_pop "selectionRange" (dict_pop "glyph" (dict_pop "parent" entries)))).
  { intros k Hk. simpl in Hk.
    repeat (apply orb_false_elim in Hk; destruct Hk as [? Hk]).
    rewrite serialize_body_field_other by assumption.
    rewrite (serialize_location_field_other _ _ _ _ Hx1) by assumption.
    rewrite (format_range_field_other _ _ _ Hx0) by assumption.
    rewrite set_children_other by assumption.
    now rewrite serialize_kind_other by assumption. }
  eexists. split; [reflexivity |].
  repeat split.
  - rewrite Hgen by reflexivity. dict_other. apply dict_get_pop_same.
  - rewrite Hgen by reflexivity. dict_other. apply dict_get_pop_same.
  - rewrite Hgen by reflexivity. apply dict_get_pop_same.
  - intros k Hk. simpl in Hk.
    repeat (apply orb_false_elim in Hk; destruct Hk as [? Hk]).
    rewrite Hgen by (simpl; repeat (apply orb_false_intro; [assumption |]); reflexivity).
    now repeat rewrite dict_get_pop_other by assumption.
  - intros Hl. unfold dict_get_none.
    rewrite serialize_body_field_other by reflexivity.
    apply (serialize_location_field_stays _ _ _ Hx1).
    unfold dict_get_none.
    rewrite (format_range_field_other _ _ _ Hx0) by reflexivity.
    rewrite set_children_other by reflexivity.
    rewrite serialize_kind_other by reflexivity.
    dict_other. exact Hl.
Qed.

(** The serializer reads [children] off the dict it is building, as the
    source does with [serialized.get("children")]. *)
Lemma serialize_symbol_unfold (lib : PyLib) (entries : pydict) :
  _serialize_symbol lib (PDict entries)
  = (let serialized :=
       serialize_kind lib
         (dict_pop "selectionRange" (dict_pop "glyph" (dict_pop "parent" entries))) in
     children <- match dict_get_none "children" serialized with
                 | PList items =>
                     cs <- comprehension (_serialize_symbol lib) items ;; Ok (Some cs)
                 | _ => Ok None
                 end ;;
     serialized <- format_range_field (set_children children serialized) ;;
     serialized <- serialize_location_field lib serialized ;;
     Ok (PDict (serialize_body_field lib serialized))).
Proof.
  cbn [_serialize_symbol]. cbv zeta. f_equal.
  unfold dict_get_none. rewrite serialize_kind_other by reflexivity. dict_other.
  induction entries as [| [k c] entries IH]; [reflexivity |].
  cbn [dict_get]. destruct (String.eqb "children" k); [| exact IH].
  now destruct c.
Qed.

(** C4: a sanitized symbol has no [name] and no [location] key, and
    sanitizing it a second time does not return it: the call raises, on
    the missing [name] or on the range that is already a string. *)
Theorem sanitize_not_idempotent (s v : pydict) :
  _sanitize_symbol_dict s = Ok v ->
  dict_get "name" v = None /\ dict_get "location" v = None
  /\ (_sanitize_symbol_dict v = Raise (KeyError "name")
      \/ _sanitize_symbol_dict v = Raise TypeError).
Proof.
  intros H. destruct (sanitize_shape s v H) as (Hn & Hl & Hr).
  split; [exact Hn | split; [exact Hl |]].
  unfold _sanitize_symbol_dict, dict_get_or. rewrite Hl. simpl.
  assert (Hrange : dict_get_none "range" (dict_pop "location" v) = dict_get_none "range" v).
  { unfold dict_get_none. now dict_other. }
  destruct (py_truthy (dict_get_none "range" v)) eqn:Ht.
  - right. rewrite format_range_field_formatted; [reflexivity | |]; rewrite Hrange; auto.
  - left. unfold format_range_field. rewrite Hrange, Ht. simpl.
    unfold dict_pop_strict. dict_other. now rewrite Hn.
Qed.

Lemma sanitize_not_idempotent_witness :
  _sanitize_symbol_dict [("name", PStr "f"); ("name_path", PStr "f")]
    = Ok [("name_path", PStr "f")]
  /\ (_sanitize_symbol_dict [("name_path", PStr "f")] = Raise (KeyError "name")
      \/ _sanitize_symbol_dict [("name_path", PStr "f")] = Raise TypeError).
Proof.
  split; [reflexivity |].
  apply (sanitize_not_idempotent [("name", PStr "f"); ("name_path", PStr "f")]).
  reflexivity.
Defined.

(** C4, as stated, fails: the symbol [{name: f, name_path: f}] is
    sanitized to [{name_path: f}], and sanitizing that raises. *)
Lemma sanitize_idempotent_counterexample :
  exists v, _sanitize_symbol_dict [("name", PStr "f"); ("name_path", PStr "f")] = Ok v
            /\ _sanitize_symbol_dict v <> Ok v.
Proof.
  exists [("name_path", PStr "f")]. split; [reflexivity | discriminate].
Qed.

(** ** Runs of the tools *)


Lemma reference_dict_form (self : Tool) (ref : ReferenceInSymbol) (d : pydict) :
  reference_dict self false ref = Ok d -> sanitized_form d /\ has_snippet self ref d.
Proof.
  unfold reference_dict. intros H. bind_inv H. bind_inv H. simpl in H.
  destruct (location_relative_path (ref_symbol ref)) as [p |] eqn:Hp; [| discriminate H].
  bind_inv H. injection H as <-.
  destruct (sanitize_shape _ _ Hx0) as (Hn & Hl & _).
  split.
  - split; now dict_other.
  - exists p, x1. split; [exact Hp | split; [exact Hx1 | apply dict_get_set_same]].
Qed.










(** ** Kind parsing *)

Lemma SymbolKind_of_Z_valid (k : Z) :
  valid_kind k = true -> exists kind, SymbolKind_of_Z k = Some kind.
Proof.
  unfold valid_kind, SymbolKind_of_Z. intros H. rewrite H.
  apply andb_true_iff in H. destruct H as [Hlo Hhi].
  apply Z.leb_le in Hlo, Hhi.
  destruct (nth_error all_kinds (Z.to_nat (k - 1))) eqn:E; [eauto |].
  apply nth_error_None in E. simpl in E. lia.
Qed.

Lemma SymbolKind_of_Z_invalid (k : Z) :
  k < 1 \/ 26 < k -> SymbolKind_of_Z k = None.
Proof.
  unfold SymbolKind_of_Z. intros H.
  destruct (1 <=? k) eqn:Hlo; [| reflexivity].
  destruct (k <=? 26) eqn:Hhi; [| reflexivity].
  apply Z.leb_le in Hlo, Hhi. lia.
Qed.

Lemma SymbolKind_ctor_cases (k : Z) :
  (valid_kind k = true /\ exists kind, SymbolKind_ctor k = Ok kind)
  \/ ((k < 1 \/ 26 < k) /\ SymbolKind_ctor k = Raise ValueError).
Proof.
  unfold SymbolKind_ctor. destruct (valid_kind k) eqn:Hk.
  - left. split; [reflexivity |].
    destruct (SymbolKind_of_Z_valid k Hk) as [kind ->]. eauto.
  - right. assert (Hout : k < 1 \/ 26 < k).
    { unfold valid_kind in Hk. apply andb_false_iff in Hk.
      destruct Hk as [Hk | Hk]; apply Z.leb_gt in Hk; lia. }
    split; [exact Hout |]. now rewrite (SymbolKind_of_Z_invalid k Hout).
Qed.

(** Kind parsing returns, or raises [ValueError]; it raises as soon as
    one value lies outside the enumeration. *)
Lemma comprehension_kinds (kinds : list Z) :
  (Forall (fun k => valid_kind k = true) kinds
   /\ exists ks, comprehension SymbolKind_ctor kinds = Ok ks)
  \/ (Exists (fun k => k < 1 \/ 26 < k) kinds
      /\ comprehension SymbolKind_ctor kinds = Raise ValueError).
Proof.
  induction kinds as [| k kinds IH]; simpl.
  - left. split; [constructor | eauto].
  - destruct (SymbolKind_ctor_cases k) as [[Hk [kind ->]] | [Hout ->]]; simpl.
    + destruct IH as [[Hall [ks ->]] | [Hex ->]]; simpl.
      * left. split; [now constructor | eauto].
      * right. split; [now apply Exists_cons_tl | reflexivity].
    + right. split; [now apply Exists_cons_hd | reflexivity].
Qed.

Lemma parse_kinds_cases (kinds : list Z) :
  (exists ks, parse_kinds kinds = Ok ks) \/ parse_kinds kinds = Raise ValueError.
Proof.
  destruct kinds as [| k kinds]; [left; simpl; eauto |].
  unfold parse_kinds.
  destruct (comprehension_kinds (k :: kinds)) as [[_ [ks ->]] | [_ ->]]; simpl; eauto.
Qed.

Lemma parse_kinds_invalid (kinds : list Z) (k : Z) :
  In k kinds -> k < 1 \/ 26 < k -> parse_kinds kinds = Raise ValueError.
Proof.
  intros Hin Hout. destruct kinds as [| k0 kinds]; [destruct Hin |].
  unfold parse_kinds.
  destruct (comprehension_kinds (k0 :: kinds)) as [[Hall _] | [_ ->]]; [| reflexivity].
  rewrite Forall_forall in Hall. specialize (Hall k Hin).
  unfold valid_kind in Hall. apply andb_true_iff in Hall. destruct Hall as [Hlo Hhi].
  apply Z.leb_le in Hlo, Hhi. lia.
Qed.

(** C6: with a kind value outside the 26-value enumeration in either
    list, find-symbol and find-referencing-symbols raise [ValueError]
    and the trace of retriever calls is empty. *)
Theorem invalid_kind_fails_before_search (self : Tool)
    (name_path_pattern : string) (depth : Z) (relative_path : string)
    (include_body : bool) (include_kinds exclude_kinds : list Z)
    (substring_matching : bool) (max_answer_chars : Z) (k : Z) :
  In k (include_kinds ++ exclude_kinds)%list ->
  k < 1 \/ 26 < k ->
  run (FindSymbolTool_apply self name_path_pattern depth relative_path include_body
         include_kinds exclude_kinds substring_matching max_answer_chars)
    = ([], Raise ValueError)
  /\ run (FindReferencingSymbolsTool_apply self name_path_pattern relative_path
            include_kinds exclude_kinds max_answer_chars)
    = ([], Raise ValueError).
Proof.
  intros Hin Hout.
  assert (Hparse : parse_kinds include_kinds = Raise ValueError
                   \/ (exists ks, parse_kinds include_kinds = Ok ks)
                      /\ parse_kinds exclude_kinds = Raise ValueError).
  { apply in_app_or in Hin. destruct Hin as [Hin | Hin].
    - left. exact (parse_kinds_invalid _ _ Hin Hout).
    - destruct (parse_kinds_cases include_kinds) as [Hok | Hraise]; [| now left].
      right. split; [exact Hok | exact (parse_kinds_invalid _ _ Hin Hout)]. }
  unfold FindSymbolTool_apply, FindSymbolTool_symbol_dicts,
    FindReferencingSymbolsTool_apply, FindReferencingSymbolsTool_reference_dicts,
    run, mbind, lift.
  destruct Hparse as [-> | [[ks ->] ->]]; split; reflexivity.
Qed.

Lemma invalid_kind_fails_before_search_witness :
  run (FindSymbolTool_apply sample_tool "f" 0 "" false [5; 27] [12] false (-1))
    = ([], Raise ValueError)
  /\ run (FindReferencingSymbolsTool_apply sample_tool "f" "" [5; 27] [12] (-1))
    = ([], Raise ValueError).
Proof.
  apply (invalid_kind_fails_before_search sample_tool "f" 0 "" false [5; 27] [12] false (-1) 27).
  - simpl. auto.
  - lia.
Defined.

(** ** Overview *)

(** C7: get-overview raises [FileNotFoundError] on a path that does not
    exist and [ValueError] on a directory, in both cases without a
    retrieval call; the overview is requested exactly when the path
    exists and is no directory. *)
Theorem overview_path_checks (lib : PyLib) (self : Tool) (relative_path : string)
    (max_answer_chars : Z) (retriever : SymbolRetriever) :
  create_language_server_symbol_retriever self = Ok retriever ->
  let file_path := os_path_join lib (project_root (project self)) relative_path in
  let outcome := run (GetSymbolsOverviewTool_apply lib self relative_path max_answer_chars) in
  (os_path_exists lib file_path = false ->
   outcome = ([EvCreateRetriever], Raise FileNotFoundError))
  /\ (os_path_exists lib file_path = true -> os_path_isdir lib file_path = true ->
      outcome = ([EvCreateRetriever], Raise ValueError))
  /\ (existsb is_retrieval (fst outcome)
      = os_path_exists lib file_path && negb (os_path_isdir lib file_path))
  /\ (os_path_exists lib file_path = true -> os_path_isdir lib file_path = false ->
      fst outcome = [EvCreateRetriever; EvGetSymbolOverview relative_path]).
Proof.
  intros Hcreate file_path outcome. subst outcome.
  unfold GetSymbolsOverviewTool_apply, run, mbind, call, lift.
  rewrite Hcreate. simpl app. fold file_path.
  destruct (os_path_exists lib file_path); simpl.
  - destruct (os_path_isdir lib file_path); simpl.
    + repeat split; intros; try reflexivity; discriminate.
    + destruct (get_symbol_overview retriever relative_path) as [overview | e]; simpl.
      * destruct (assoc_get relative_path overview) as [result |]; simpl.
        -- destruct (_to_output self (PList result)); simpl;
             repeat split; intros; try reflexivity; discriminate.
        -- repeat split; intros; try reflexivity; discriminate.
      * repeat split; intros; try reflexivity; discriminate.
  - repeat split; intros; try reflexivity; discriminate.
Qed.

Lemma overview_path_checks_witness :
  run (GetSymbolsOverviewTool_apply sample_lib sample_tool "zz.py" (-1))
    = ([EvCreateRetriever], Raise FileNotFoundError)
  /\ run (GetSymbolsOverviewTool_apply sample_lib sample_tool "pkg" (-1))
    = ([EvCreateRetriever], Raise ValueError)
  /\ fst (run (GetSymbolsOverviewTool_apply sample_lib sample_tool "a.py" (-1)))
    = [EvCreateRetriever; EvGetSymbolOverview "a.py"].
Proof.
  split; [| split].
  - apply (overview_path_checks sample_lib sample_tool "zz.py" (-1) sample_retriever);
      reflexivity.
  - apply (overview_path_checks sample_lib sample_tool "pkg" (-1) sample_retriever);
      reflexivity.
  - apply (overview_path_checks sample_lib sample_tool "a.py" (-1) sample_retriever);
      reflexivity.
Defined.

(** ** Referencing symbols *)

Lemma reference_dict_answers (self : Tool) (ref : ReferenceInSymbol) :
  answers self ref ->
  match location_relative_path (ref_symbol ref) with
  | None => reference_dict self false ref = Raise AssertionError
  | Some _ => exists d, reference_dict self false ref = Ok d
  end.
Proof.
  intros [(d & d' & Hd & Hd') Hsnippet]. unfold reference_dict.
  rewrite Hd. simpl. rewrite Hd'. simpl.
  destruct (location_relative_path (ref_symbol ref)) as [p |]; [| reflexivity].
  destruct (Hsnippet p eq_refl) as [c ->]. simpl. eauto.
Qed.

Lemma reference_loop_asserts (self : Tool) (refs : list ReferenceInSymbol) :
  Forall (answers self) refs ->
  Exists (fun ref => location_relative_path (ref_symbol ref) = None) refs ->
  for_append (reference_dict self false) refs [] = Raise AssertionError.
Proof.
  rewrite for_append_comprehension. intros Hans Hex.
  induction Hans as [| ref refs Href _ IH]; [inversion Hex |].
  apply reference_dict_answers in Href. simpl.
  destruct (location_relative_path (ref_symbol ref)) as [p |] eqn:Hp.
  - destruct Href as [d ->]. simpl.
    inversion Hex as [? ? Hnone | ? ? Htail]; subst; [congruence |].
    specialize (IH Htail).
    destruct (comprehension (reference_dict self false) refs); [discriminate IH |].
    simpl in *. exact IH.
  - now rewrite Href.
Qed.

Lemma reference_loop_returns (self : Tool) (refs : list ReferenceInSymbol) :
  Forall (answers self) refs ->
  Forall (fun ref => location_relative_path (ref_symbol ref) <> None) refs ->
  exists ds, for_append (reference_dict self false) refs [] = Ok ds.
Proof.
  intros Hans Hpaths. apply for_append_all_ok.
  rewrite Forall_forall in *. intros ref Hin.
  specialize (Hans ref Hin). specialize (Hpaths ref Hin).
  apply reference_dict_answers in Hans.
  destruct (location_relative_path (ref_symbol ref)); [exact Hans | congruence].
Qed.

Lemma reference_loop_snippets (self : Tool) (refs : list ReferenceInSymbol)
    (ds : list pydict) :
  for_append (reference_dict self false) refs [] = Ok ds ->
  Forall2 (has_snippet self) refs ds.
Proof.
  intros H. apply for_append_ok in H.
  induction H as [| ref d refs ds Hd _ IH]; constructor; [| exact IH].
  now apply reference_dict_form in Hd.
Qed.

Lemma reference_loop_surfaces (self : Tool) (refs : list ReferenceInSymbol)
    (ds : list pydict) :
  Exists (fun ref => location_relative_path (ref_symbol ref) = None) refs ->
  for_append (reference_dict self false) refs [] <> Ok ds.
Proof.
  intros Hex H. apply reference_loop_snippets in H.
  induction H as [| ref d refs ds Hd _ IH].
  - inversion Hex.
  - inversion Hex as [? ? Hnone | ? ? Htail]; subst; [| exact (IH Htail)].
    destruct Hd as (p & c & Hp & _). congruence.
Qed.

(** C8: in find-referencing-symbols, a reference whose symbol has no
    relative path makes the operation fail: it never returns, and with
    collaborators that answer the failure is the [AssertionError].  When
    every referencing symbol has a relative path the assertion is not
    reached, and every reference dict carries the snippet with one line
    of context. *)
Theorem referencing_symbols_need_paths (self : Tool) (name_path relative_path : string)
    (include_kinds exclude_kinds : list Z) (max_answer_chars : Z)
    (incl excl : option (list SymbolKind)) (retriever : SymbolRetriever)
    (refs : list ReferenceInSymbol) :
  parse_kinds include_kinds = Ok incl ->
  parse_kinds exclude_kinds = Ok excl ->
  create_language_server_symbol_retriever self = Ok retriever ->
  find_referencing_symbols retriever name_path relative_path false incl excl = Ok refs ->
  let dicts := snd (run (FindReferencingSymbolsTool_reference_dicts self name_path
                           relative_path include_kinds exclude_kinds)) in
  let outcome := snd (run (FindReferencingSymbolsTool_apply self name_path
                             relative_path include_kinds exclude_kinds max_answer_chars)) in
  (Exists (fun ref => location_relative_path (ref_symbol ref) = None) refs ->
   (exists e, outcome = Raise e)
   /\ (Forall (answers self) refs -> outcome = Raise AssertionError))
  /\ (Forall (fun ref => location_relative_path (ref_symbol ref) <> None) refs ->
      (forall ds, dicts = Ok ds -> Forall2 (has_snippet self) refs ds)
      /\ (Forall (answers self) refs ->
          exists ds, dicts = Ok ds /\ Forall2 (has_snippet self) refs ds)).
Proof.
  intros Hincl Hexcl Hcreate Hfind dicts outcome. subst dicts outcome.
  unfold FindReferencingSymbolsTool_apply, FindReferencingSymbolsTool_reference_dicts,
    run, mbind, call, lift.
  rewrite Hincl, Hexcl, Hcreate, Hfind. cbn [snd].
  split.
  - intros Hex. split.
    + destruct (for_append (reference_dict self false) refs []) as [ds | e] eqn:Hloop.
      * exfalso. exact (reference_loop_surfaces _ _ _ Hex Hloop).
      * simpl. eauto.
    + intros Hans. now rewrite reference_loop_asserts.
  - intros Hpaths. split.
    + intros ds Hds. now apply reference_loop_snippets.
    + intros Hans. destruct (reference_loop_returns self refs Hans Hpaths) as [ds Hds].
      exists ds. split; [exact Hds | now apply reference_loop_snippets].
Qed.

Lemma sample_answers (self : Tool) (name : string) (path : option string) (line : Z) :
  project self = sample_project ->
  answers self {| ref_symbol := sample_symbol name path; ref_line := line |}.
Proof.
  intros Hproject. split.
  - destruct path as [p |]; do 2 eexists; split; reflexivity.
  - intros p _. exists "snippet". rewrite Hproject. reflexivity.
Defined.

Lemma referencing_symbols_need_paths_witness :
  (exists ds,
      snd (run (FindReferencingSymbolsTool_reference_dicts sample_tool "f" "a.py" [] []))
        = Ok ds
      /\ Forall2 (has_snippet sample_tool) sample_refs ds)
  /\ snd (run (FindReferencingSymbolsTool_apply unlocated_tool "f" "a.py" [] [] (-1)))
     = Raise AssertionError.
Proof.
  split.
  - apply (referencing_symbols_need_paths sample_tool "f" "a.py" [] [] (-1)
             None None sample_retriever sample_refs);
      try reflexivity.
    + repeat constructor; discriminate.
    + unfold sample_refs, unlocated_refs.
      repeat (apply Forall_cons; [now apply sample_answers |]). apply Forall_nil.
  - apply (referencing_symbols_need_paths unlocated_tool "f" "a.py" [] [] (-1)
             None None unlocated_retriever unlocated_refs);
      try reflexivity.
    + apply Exists_cons_tl, Exists_cons_hd. reflexivity.
    + unfold sample_refs, unlocated_refs.
      repeat (apply Forall_cons; [now apply sample_answers |]). apply Forall_nil.
Defined.

(** ** Hover *)

Lemma append_parts_texts (lib : PyLib) (items : list pyval) (texts : list string) :
  Forall2 (fun part text => entry_text part = Some text) items texts ->
  forall parts, fold_left (append_part lib) items parts = (parts ++ map PStr texts)%list.
Proof.
  induction 1 as [| part text items texts Hpart _ IH]; intros parts; simpl.
  - now rewrite app_nil_r.
  - assert (Hstep : append_part lib parts part = (parts ++ [PStr text])%list).
    { destruct part as [| b | z | s | l | d]; simpl in Hpart; try discriminate Hpart.
      - now injection Hpart as ->.
      - simpl. unfold dict_get_or.
        destruct (dict_get "value" d) as [[| | | s | |] |]; try discriminate Hpart.
        now injection Hpart as ->. }
    now rewrite IH, Hstep, <- app_assoc.
Qed.

Lemma str_join_strings (sep : string) (texts : list string) :
  str_join sep (map PStr texts) = Ok (String.concat sep texts).
Proof.
  unfold str_join.
  assert (H : comprehension
                (fun p => match p with PStr s => Ok s | _ => Raise TypeError end)
                (map PStr texts) = Ok texts).
  { induction texts as [| t ts IH]; simpl; [reflexivity | now rewrite IH]. }
  now rewrite H.
Qed.

(** C5: how a hover result becomes text.  A null result gives the
    no-information message.  Contents that are missing or empty give the
    no-content message.  Otherwise a string is returned as it is, a
    mapping gives its [value] field, and a list of strings and of
    mappings with a string [value] gives the texts joined by a blank
    line. *)
Theorem hover_normalization (lib : PyLib) (result : pydict) (contents : pyval) :
  dict_get_none "contents" result = contents ->
  (py_truthy contents = false ->
   hover_text lib (PDict result) = Ok (PStr "No content in hover result."))
  /\ (py_truthy contents = true ->
      (forall s, contents = PStr s -> hover_text lib (PDict result) = Ok (PStr s))
      /\ (forall d v, contents = PDict d -> dict_get "value" d = Some v ->
                      hover_text lib (PDict result) = Ok v)
      /\ (forall items texts,
             contents = PList items ->
             Forall2 (fun part text => entry_text part = Some text) items texts ->
             hover_text lib (PDict result)
             = Ok (PStr (String.concat (newline ++ newline) texts))))
  /\ hover_text lib PNone = Ok (PStr "No hover information available.")
  /\ (forall self relative_path line character ls,
         _get_language_server self relative_path = Ok ls ->
         request_hover ls relative_path line character = Ok PNone ->
         GetHoverInfoTool_apply lib self relative_path line character
         = Ok (PStr "No hover information available.")).
Proof.
  intros Hc. unfold hover_text. cbn [is_none py_get py_get_default rbind].
  fold (dict_get_none "contents" result). rewrite Hc.
  split; [| split; [| split]].
  - now intros ->.
  - intros ->. cbn [negb]. split; [| split].
    + now intros s ->.
    + intros d v -> Hv. unfold dict_get_or. now rewrite Hv.
    + intros items texts -> Htexts.
      rewrite (append_parts_texts lib items texts Htexts). simpl app.
      now rewrite str_join_strings.
  - reflexivity.
  - intros self relative_path line character ls Hls Hhover.
    unfold GetHoverInfoTool_apply. rewrite Hls. simpl. now rewrite Hhover.
Qed.

Lemma hover_normalization_witness :
  hover_text sample_lib
    (PDict [("contents", PList [PStr "a"; PDict [("value", PStr "b")]])])
  = Ok (PStr ("a" ++ newline ++ newline ++ "b")).
Proof.
  destruct (hover_normalization sample_lib
              [("contents", PList [PStr "a"; PDict [("value", PStr "b")]])]
              (PList [PStr "a"; PDict [("value", PStr "b")]]) eq_refl)
    as (_ & Hfull & _).
  destruct (Hfull eq_refl) as (_ & _ & Hlist).
  apply (Hlist [PStr "a"; PDict [("value", PStr "b")]] ["a"; "b"] eq_refl).
  repeat constructor.
Defined.

(** C5, as stated, fails on the empty string: it is a plain-string
    contents value and the tool returns the no-content message in its
    place. *)
Lemma hover_plain_string_counterexample :
  hover_text sample_lib (PDict [("contents", PStr "")])
    = Ok (PStr "No content in hover result.")
  /\ hover_text sample_lib (PDict [("contents", PStr "")]) <> Ok (PStr "").
Proof.
  split; [reflexivity | discriminate].
Qed.

(** ** Entry builders *)

Lemma for_append_ext {A B : Type} (f g : A -> res B) (l : list A) :
  Forall (fun x => f x = g x) l -> forall acc, for_append f l acc = for_append g l acc.
Proof.
  induction 1 as [| x xs Hx _ IH]; intros acc; simpl; [reflexivity |].
  rewrite Hx. destruct (g x); simpl; [apply IH | reflexivity].
Qed.

(** Where a range comes with every resolved path, the two builders
    compute the same entry. *)
Lemma entry_builders_agree (lib : PyLib) (project_root : string) (project : Project)
    (raw : pyval) :
  path_has_range raw = true ->
  definition_entry lib project_root project raw = reference_entry lib project_root project raw.
Proof.
  destruct raw as [| b | z | s | l | d]; try reflexivity.
  unfold path_has_range, definition_entry, reference_entry, py_get, py_get_default.
  fold (dict_get_none "relativePath" d) (dict_get_none "absolutePath" d)
       (dict_get_none "range" d) (dict_get_none "uri" d).
  cbn [rbind]. intros H.
  destruct (is_none (dict_get_none "relativePath" d)) eqn:Hrel;
    destruct (is_none (dict_get_none "absolutePath" d)) eqn:Habs;
    cbn [andb negb orb] in *.
  - destruct (dict_get_none "relativePath" d); try discriminate Hrel. reflexivity.
  - destruct (py_relpath lib (dict_get_none "absolutePath" d) project_root); [| reflexivity].
    cbn [rbind is_none negb]. rewrite H.
    unfold py_getitem at 1. unfold dict_get_none in H |- *.
    destruct (dict_get "range" d); [reflexivity | discriminate H].
  - cbn [rbind]. rewrite Hrel. cbn [negb]. rewrite H.
    unfold py_getitem at 1. unfold dict_get_none in H |- *.
    destruct (dict_get "range" d); [reflexivity | discriminate H].
  - cbn [rbind]. rewrite Hrel. cbn [negb]. rewrite H.
    unfold py_getitem at 1. unfold dict_get_none in H |- *.
    destruct (dict_get "range" d); [reflexivity | discriminate H].
Qed.

Lemma format_entries_agree (lib : PyLib) (project_root : string) (project : Project)
    (raws : list pyval) :
  Forall (fun raw => path_has_range raw = true) raws ->
  _format_definition_entries lib raws project_root project
  = _format_reference_entries lib raws project_root project.
Proof.
  intros H. apply for_append_ext.
  eapply Forall_impl; [| exact H]. intros raw. apply entry_builders_agree.
Qed.

(** C2: on a location with a relative path and no range the two
    builders part: the definition builder raises [KeyError], the
    reference builder returns an entry without range and snippet. *)
Theorem definition_builder_needs_range (lib : PyLib) (project_root : string)
    (project : Project) :
  _format_definition_entries lib [PDict [("relativePath", PStr "a.py")]] project_root project
    = Raise (KeyError "range")
  /\ _format_reference_entries lib [PDict [("relativePath", PStr "a.py")]] project_root project
    = Ok [PDict [("relative_path", PStr "a.py"); ("range", PNone); ("snippet", PNone)]].
Proof.
  split; reflexivity.
Qed.


Lemma formatted_range_cases (rng formatted_range : pyval) :
  (if py_truthy rng then r <- _format_range rng ;; Ok (PStr r) else Ok PNone)
  = Ok formatted_range ->
  formatted_range = PNone \/ exists r, formatted_range = PStr r.
Proof.
  destruct (py_truthy rng); intros H.
  - bind_inv H. injection H as <-. eauto.
  - injection H as <-. now left.
Qed.








(** ** Worked values *)

Example format_range_example :
  _format_range (range_of 1 2 3 4) = Ok "2:3-4:5".
Proof. reflexivity. Qed.

Example clean_example :
  _clean_none_and_empty
    (PList [PStr ""; PInt 0; PBool false; PNone; PList []; PDict [];
            PDict [("a", PNone); ("b", PList [PNone])];
            PDict [("c", PStr ""); ("d", PList [PDict []; PInt 0])]])
  = PList [PStr ""; PInt 0; PBool false;
           PDict [("c", PStr ""); ("d", PList [PInt 0])]].
Proof. reflexivity. Qed.

Example serialize_symbol_example :
  _serialize_symbol sample_lib sample_raw_symbol
  = Ok (PDict [("name", PStr "f"); ("kind", PStr "Function");
               ("location", PStr "a.py:4:1-6:2")]).
Proof. reflexivity. Qed.

(** * Further properties *)

(** ** Range formatter *)

(** X1: a range whose [start] and [end] hold integer [line] and
    [character] is rendered with all four numbers raised by one,
    whatever else the dicts contain. *)
Theorem format_range_one_indexed (rng start end_ : pydict) (sl sc el ec : Z) :
  dict_get "start" rng = Some (PDict start) ->
  dict_get "end" rng = Some (PDict end_) ->
  dict_get "line" start = Some (PInt sl) ->
  dict_get "character" start = Some (PInt sc) ->
  dict_get "line" end_ = Some (PInt el) ->
  dict_get "character" end_ = Some (PInt ec) ->
  _format_range (PDict rng)
  = Ok (str_of_Z (sl + 1) ++ ":" ++ str_of_Z (sc + 1) ++ "-"
        ++ str_of_Z (el + 1) ++ ":" ++ str_of_Z (ec + 1)).
Proof.
  intros Hs He Hsl Hsc Hel Hec. unfold _format_range, py_getitem.
  rewrite Hs, He. cbn [rbind]. rewrite Hsl, Hsc, Hel, Hec. reflexivity.
Qed.

Lemma format_range_one_indexed_witness :
  _format_range (range_of 1 2 3 4) = Ok "2:3-4:5".
Proof.
  apply (format_range_one_indexed
           [("start", position 1 2); ("end", position 3 4)]
           [("line", PInt 1); ("character", PInt 2)]
           [("line", PInt 3); ("character", PInt 4)] 1 2 3 4);
    reflexivity.
Defined.



(** ** Cleaning pass *)

Lemma filter_keep_clean_twice (items : list pyval) :
  Forall (fun x => _clean_none_and_empty (_clean_none_and_empty x) = _clean_none_and_empty x)
    items ->
  filter keep (map _clean_none_and_empty (filter keep (map _clean_none_and_empty items)))
  = filter keep (map _clean_none_and_empty items).
Proof.
  induction 1 as [| x xs Hx _ IH]; simpl; [reflexivity |].
  destruct (keep (_clean_none_and_empty x)) eqn:Hk; simpl; [| exact IH].
  now rewrite Hx, Hk, IH.
Qed.

(** X3: cleaning is idempotent: a cleaned structure is left as it is by
    a second pass. *)
Theorem clean_none_and_empty_idempotent (obj : pyval) :
  _clean_none_and_empty (_clean_none_and_empty obj) = _clean_none_and_empty obj.
Proof.
  induction obj as [| b | z | s | items IH | entries IH] using pyval_nested_ind;
    try reflexivity; simpl; f_equal.
  - now apply filter_keep_clean_twice.
  - induction IH as [| [k v] kvs Hv _ IHkvs]; simpl; [reflexivity |].
    simpl in Hv. destruct (keep (_clean_none_and_empty v)) eqn:Hk; simpl; [| exact IHkvs].
    now rewrite Hv, Hk, IHkvs.
Qed.

(** ** Sanitizer *)

(** X4: apart from [relative_path], [location], [range] and [name], the
    sanitizer hands every key on with its value. *)
Theorem sanitize_passes_other_keys (k : string) (s v : pydict) :
  _sanitize_symbol_dict s = Ok v ->
  existsb (String.eqb k) ["relative_path"; "location"; "range"; "name"] = false ->
  dict_get k v = dict_get k s.
Proof.
  exact (sanitize_keeps k s v).
Qed.

Lemma sanitize_passes_other_keys_witness :
  dict_get "name_path" [("name_path", PStr "A/f"); ("kind", PStr "Method")]
  = dict_get "name_path" [("name", PStr "f"); ("name_path", PStr "A/f"); ("kind", PStr "Method")].
Proof.
  apply (sanitize_passes_other_keys "name_path"
           [("name", PStr "f"); ("name_path", PStr "A/f"); ("kind", PStr "Method")]);
    reflexivity.
Defined.

(** X5: what the sanitizer writes.  With a location dict that has a
    relative path, that path becomes [relative_path]; a range that
    counts as true is replaced by its formatted string, any other range
    is left as it is. *)
Theorem sanitize_writes (s v location : pydict) :
  _sanitize_symbol_dict s = Ok v ->
  dict_get "location" s = Some (PDict location) ->
  (forall p, dict_get "relative_path" location = Some p -> is_none p = false ->
             dict_get "relative_path" v = Some p)
  /\ (is_none (dict_get_none "relative_path" location) = true ->
      dict_get "relative_path" v = dict_get "relative_path" s)
  /\ (py_truthy (dict_get_none "range" s) = true ->
      exists r, _format_range (dict_get_none "range" s) = Ok r
                /\ dict_get "range" v = Some (PStr r))
  /\ (py_truthy (dict_get_none "range" s) = false ->
      dict_get "range" v = dict_get "range" s).
Proof.
  unfold _sanitize_symbol_dict, dict_get_or. intros H Hloc. rewrite Hloc in H.
  cbn [py_get py_get_default rbind] in H.
  fold (dict_get_none "relative_path" location) in H.
  bind_inv H. unfold dict_pop_strict in H.
  destruct (dict_get "name" x) as [nm |]; [| discriminate H]. injection H as <-.
  set (d0 := if is_none (dict_get_none "relative_path" location) then s
             else dict_set "relative_path" (dict_get_none "relative_path" location) s) in *.
  assert (Hrange0 : dict_get_none "range" (dict_pop "location" d0) = dict_get_none "range" s).
  { unfold dict_get_none, d0. dict_other.
    destruct (is_none _); [reflexivity | now dict_other]. }
  repeat split.
  - intros p Hp Hnone. dict_other.
    rewrite (format_range_field_other _ _ _ Hx) by reflexivity. dict_other.
    unfold d0, dict_get_none. rewrite Hp, Hnone. apply dict_get_set_same.
  - intros Hnone. dict_other.
    rewrite (format_range_field_other _ _ _ Hx) by reflexivity. dict_other.
    unfold d0. now rewrite Hnone.
  - intros Ht. unfold format_range_field in Hx. rewrite Hrange0, Ht in Hx.
    bind_inv Hx. injection Hx as <-. exists x0. split; [exact Hx0 |].
    dict_other. apply dict_get_set_same.
  - intros Ht. unfold format_range_field in Hx. rewrite Hrange0, Ht in Hx.
    injection Hx as <-. dict_other. unfold d0.
    destruct (is_none _); [reflexivity | now dict_other].
Qed.

Lemma sanitize_writes_witness :
  dict_get "relative_path"
    [("name_path", PStr "f"); ("range", PStr "4:1-6:2"); ("relative_path", PStr "a.py")]
  = Some (PStr "a.py").
Proof.
  refine (proj1 (sanitize_writes
                   [("name", PStr "f"); ("name_path", PStr "f");
                    ("location", PDict [("relative_path", PStr "a.py")]);
                    ("range", range_of 3 0 5 1)]
                   _ [("relative_path", PStr "a.py")] _ _) (PStr "a.py") _ _);
    reflexivity.
Defined.

(** X6: how the sanitizer fails.  A [location] that is no dict raises
    [AttributeError]; with the location in order, a range that counts as
    true and is no dict raises [TypeError]; with both in order, a missing
    [name] raises [KeyError]. *)
Theorem sanitize_failures (s : pydict) :
  (forall location, dict_get "location" s = Some location ->
      match location with PDict _ => False | _ => True end ->
      _sanitize_symbol_dict s = Raise AttributeError)
  /\ (dict_get "location" s = None ->
      py_truthy (dict_get_none "range" s) = true ->
      match dict_get_none "range" s with PDict _ => False | _ => True end ->
      _sanitize_symbol_dict s = Raise TypeError)
  /\ (dict_get "location" s = None ->
      py_truthy (dict_get_none "range" s) = false ->
      dict_get "name" s = None ->
      _sanitize_symbol_dict s = Raise (KeyError "name")).
Proof.
  unfold _sanitize_symbol_dict, dict_get_or. repeat split.
  - intros location -> Hl. destruct location; try reflexivity. destruct Hl.
  - intros -> Ht Hr. cbn [py_get py_get_default dict_get rbind is_none].
    unfold format_range_field.
    assert (Hrange : dict_get_none "range" (dict_pop "location" s) = dict_get_none "range" s).
    { unfold dict_get_none. now dict_other. }
    rewrite Hrange, Ht.
    destruct (dict_get_none "range" s); try reflexivity. destruct Hr.
  - intros -> Ht Hn. cbn [py_get py_get_default dict_get rbind is_none].
    unfold format_range_field.
    assert (Hrange : dict_get_none "range" (dict_pop "location" s) = dict_get_none "range" s).
    { unfold dict_get_none. now dict_other. }
    rewrite Hrange, Ht. cbn [rbind]. unfold dict_pop_strict. dict_other. now rewrite Hn.
Qed.

Lemma sanitize_failures_witness :
  _sanitize_symbol_dict [("name", PStr "f"); ("location", PNone)] = Raise AttributeError.
Proof.
  apply (sanitize_failures [("name", PStr "f"); ("location", PNone)]) with (location := PNone).
  - reflexivity.
  - exact I.
Defined.

(** ** Serializer *)

Lemma dict_get_in (k : string) (d : pydict) (v : pyval) :
  dict_get k d = Some v -> In (k, v) d.
Proof.
  induction d as [| [k' v'] d IH]; simpl; [discriminate |].
  destruct (String.eqb k k') eqn:E.
  - apply String.eqb_eq in E. subst k'. intros H. injection H as ->. now left.
  - intros H. right. exact (IH H).
Qed.

(** Through the steps after the children are set, the other keys stand. *)
Lemma serialize_tail_other (lib : PyLib) (k : string) (d d1 d2 : pydict) :
  format_range_field d = Ok d1 ->
  serialize_location_field lib d1 = Ok d2 ->
  existsb (String.eqb k) ["range"; "location"; "body"] = false ->
  dict_get k (serialize_body_field lib d2) = dict_get k d.
Proof.
  intros H1 H2 Hk. simpl in Hk.
  repeat (apply orb_false_elim in Hk; destruct Hk as [? Hk]).
  rewrite serialize_body_field_other by assumption.
  rewrite (serialize_location_field_other _ _ _ _ H2) by assumption.
  now rewrite (format_range_field_other _ _ _ H1) by assumption.
Qed.

Lemma serialize_symbol_stripped_below (lib : PyLib) (v : pyval) :
  (forall out, _serialize_symbol lib v = Ok out -> stripped out)
  /\ (forall items, v = PList items ->
        Forall (fun x => forall out, _serialize_symbol lib x = Ok out -> stripped out) items).
Proof.
  induction v as [| b | z | s | items IH | entries IH] using pyval_nested_ind;
    split; try discriminate.
  - intros items' Hitems. injection Hitems as <-.
    eapply Forall_impl; [| exact IH]. now intros x [Hx _].
  - intros out H.
    pose proof (serialize_symbol_shape lib entries out H) as (d & Hout & Hp & Hg & Hs & _).
    subst out. constructor; [now repeat split |].
    intros items Hitems.
    rewrite serialize_symbol_unfold in H. cbv zeta in H.
    bind_inv H. bind_inv H. bind_inv H. injection H as <-.
    rewrite (serialize_tail_other lib "children" _ _ _ Hx0 Hx1) in Hitems by reflexivity.
    unfold dict_get_none in Hx. rewrite serialize_kind_other in Hx by reflexivity.
    rewrite !dict_get_pop_other in Hx by reflexivity.
    destruct (dict_get "children" entries) as [c |] eqn:Hc.
    + destruct c as [| | | | kids |];
        try (injection Hx as <-; simpl in Hitems;
             rewrite serialize_kind_other in Hitems by reflexivity;
             rewrite !dict_get_pop_other in Hitems by reflexivity;
             rewrite Hc in Hitems; discriminate Hitems).
      bind_inv Hx. injection Hx as <-. simpl in Hitems.
      rewrite dict_get_set_same in Hitems. injection Hitems as <-.
      apply dict_get_in in Hc. rewrite Forall_forall in IH.
      destruct (IH _ Hc) as [_ Hkids]. specialize (Hkids kids eq_refl).
      apply comprehension_ok in Hx2.
      clear - Hkids Hx2. induction Hx2 as [| kid o kids outs Hko _ IHk]; constructor.
      * inversion Hkids; subst. eauto.
      * apply IHk. now inversion Hkids.
    + injection Hx as <-. simpl in Hitems.
      rewrite serialize_kind_other in Hitems by reflexivity.
      rewrite !dict_get_pop_other in Hitems by reflexivity.
      rewrite Hc in Hitems. discriminate Hitems.
Qed.

(** X7: the serializer strips at every depth: in its result neither the
    symbol nor any symbol below it, through [children] lists, has a
    [parent], [glyph] or [selectionRange] key. *)
Theorem serialize_symbol_stripped (lib : PyLib) (symbol out : pyval) :
  _serialize_symbol lib symbol = Ok out -> stripped out.
Proof.
  intros H. exact (proj1 (serialize_symbol_stripped_below lib symbol) out H).
Qed.

Lemma serialize_symbol_stripped_witness :
  stripped (PDict [("name", PStr "A"); ("kind", PStr "Class");
                   ("children", PList [PDict [("name", PStr "f"); ("kind", PStr "Method")]])]).
Proof.
  apply (serialize_symbol_stripped sample_lib nested_raw_symbol). reflexivity.
Defined.

(** X8: an integer [kind] becomes a string and never makes the
    serializer fail: the member's name for 1 to 26, the decimal rendering
    for any other integer.  A [kind] that is no integer is handed on. *)
Theorem serialize_symbol_kind (lib : PyLib) (entries d : pydict) :
  _serialize_symbol lib (PDict entries) = Ok (PDict d) ->
  (forall z kind, dict_get "kind" entries = Some (PInt z) ->
      SymbolKind_of_Z z = Some kind ->
      dict_get "kind" d = Some (PStr (SymbolKind_name kind)))
  /\ (forall z, dict_get "kind" entries = Some (PInt z) -> (z < 1 \/ 26 < z) ->
      dict_get "kind" d = Some (PStr (str_of_Z z)))
  /\ (match dict_get_none "kind" entries with PInt _ | PBool _ => False | _ => True end ->
      dict_get "kind" d = dict_get "kind" entries).
Proof.
  intros H. rewrite serialize_symbol_unfold in H. cbv zeta in H.
  bind_inv H. bind_inv H. bind_inv H. injection H as <-.
  assert (Hk : dict_get "kind" (serialize_body_field lib x1)
               = dict_get "kind"
                   (serialize_kind lib
                      (dict_pop "selectionRange" (dict_pop "glyph" (dict_pop "parent" entries))))).
  { rewrite (serialize_tail_other lib "kind" _ _ _ Hx0 Hx1) by reflexivity.
    now apply set_children_other. }
  rewrite Hk. unfold serialize_kind, dict_get_none. dict_other.
  repeat split.
  - intros z kind -> Hkind. rewrite dict_get_set_same. unfold kind_label. now rewrite Hkind.
  - intros z -> Hout. rewrite dict_get_set_same. unfold kind_label.
    now rewrite (SymbolKind_of_Z_invalid z Hout).
  - intros Hother. destruct (dict_get "kind" entries) as [[| | | | |] |] eqn:E;
      try destruct Hother; dict_other; now rewrite ?E.
Qed.

Lemma serialize_symbol_kind_witness :
  dict_get "kind" [("name", PStr "f"); ("kind", PStr "99")] = Some (PStr (str_of_Z 99)).
Proof.
  refine (proj1 (proj2 (serialize_symbol_kind sample_lib
                          [("name", PStr "f"); ("kind", PInt 99)] _ _)) 99 _ _).
  - reflexivity.
  - reflexivity.
  - lia.
Defined.

(** X9: the [location] of a serialized symbol.  With a path (the
    relative path, else the uri) and a range it is the string
    [path:range]; otherwise it is the location dict, without [uri] and
    [absolutePath] when the relative path is there. *)
Theorem serialize_symbol_location (lib : PyLib) (entries d loc : pydict) :
  _serialize_symbol lib (PDict entries) = Ok (PDict d) ->
  dict_get "location" entries = Some (PDict loc) ->
  let rel := dict_get_none "relativePath" loc in
  let path := if py_truthy rel then rel else dict_get_none "uri" loc in
  let rng := dict_get_none "range" loc in
  (py_truthy path && py_truthy rng = true ->
   exists r, _format_range rng = Ok r
             /\ dict_get "location" d = Some (PStr (py_str lib path ++ ":" ++ r)))
  /\ (py_truthy path && py_truthy rng = false ->
      dict_get "location" d
      = Some (PDict (if py_truthy rel
                     then dict_pop "absolutePath" (dict_pop "uri" loc)
                     else loc))).
Proof.
  intros H Hloc rel path rng.
  rewrite serialize_symbol_unfold in H. cbv zeta in H.
  bind_inv H. bind_inv H. bind_inv H. injection H as <-.
  rewrite serialize_body_field_other by reflexivity.
  assert (Hl0 : dict_get_none "location" x0 = PDict loc).
  { unfold dict_get_none.
    rewrite (format_range_field_other _ _ _ Hx0) by reflexivity.
    rewrite set_children_other by reflexivity.
    rewrite serialize_kind_other by reflexivity. dict_other. now rewrite Hloc. }
  unfold serialize_location_field in Hx1. rewrite Hl0 in Hx1. cbn [is_none] in Hx1.
  bind_inv Hx1. injection Hx1 as <-. rewrite dict_get_set_same.
  unfold serialize_location in Hx2. cbn [py_dict rbind] in Hx2.
  fold rel in Hx2. fold path in Hx2. fold rng in Hx2.
  split; intros Hcase; rewrite Hcase in Hx2.
  - bind_inv Hx2. injection Hx2 as <-. eauto.
  - now injection Hx2 as <-.
Qed.

Lemma serialize_symbol_location_witness :
  dict_get "location"
    [("name", PStr "f"); ("kind", PStr "Function"); ("location", PStr "a.py:4:1-6:2")]
  = Some (PStr "a.py:4:1-6:2").
Proof.
  destruct (serialize_symbol_location sample_lib
              [("name", PStr "f"); ("kind", PInt 12); ("parent", PStr "<module>");
               ("selectionRange", range_of 3 4 3 5);
               ("location", PDict [("relativePath", PStr "a.py"); ("range", range_of 3 0 5 1)])]
              [("name", PStr "f"); ("kind", PStr "Function"); ("location", PStr "a.py:4:1-6:2")]
              [("relativePath", PStr "a.py"); ("range", range_of 3 0 5 1)]
              eq_refl eq_refl) as [Hstr _].
  destruct (Hstr eq_refl) as (r & Hr & Hd).
  simpl in Hr. injection Hr as <-. exact Hd.
Defined.

(** ** Language-server tools *)

(** X10: when the agent is not in language-server mode, the four tools
    that talk to the language server raise [RuntimeError]. *)
Theorem language_server_tools_need_server (lib : PyLib) (self : Tool)
    (relative_path : string) (line character max_answer_chars : Z) (include_body : bool) :
  agent_is_using_language_server self = false ->
  GetHoverInfoTool_apply lib self relative_path line character = Raise RuntimeError
  /\ GetDefinitionLocationsTool_apply lib self relative_path line character max_answer_chars
     = Raise RuntimeError
  /\ GetReferenceLocationsTool_apply lib self relative_path line character max_answer_chars
     = Raise RuntimeError
  /\ GetDefiningSymbolTool_apply lib self relative_path line character include_body
       max_answer_chars = Raise RuntimeError.
Proof.
  intros Hmode.
  unfold GetHoverInfoTool_apply, GetDefinitionLocationsTool_apply,
    GetReferenceLocationsTool_apply, GetDefiningSymbolTool_apply,
    GetDefiningSymbolTool_payload, _get_language_server.
  rewrite Hmode. repeat split; reflexivity.
Qed.

Lemma language_server_tools_need_server_witness :
  GetHoverInfoTool_apply sample_lib offline_tool "a.py" 0 0 = Raise RuntimeError.
Proof.
  apply (language_server_tools_need_server sample_lib offline_tool "a.py" 0 0 (-1) false).
  reflexivity.
Defined.

(** ** Hover lists *)

Lemma append_parts_flat (lib : PyLib) (items parts : list pyval) :
  fold_left (append_part lib) items parts
  = (parts ++ flat_map (append_part lib []) items)%list.
Proof.
  revert parts. induction items as [| part items IH]; intros parts; simpl.
  - now rewrite app_nil_r.
  - rewrite IH, app_assoc. f_equal. destruct part; simpl; now rewrite ?app_nil_r.
Qed.

Lemma plain_parts_texts (lib : PyLib) (items : list pyval) :
  forallb plain_part items = true ->
  flat_map (append_part lib []) items = map PStr (flat_map part_texts items).
Proof.
  induction items as [| part items IH]; simpl; [reflexivity |].
  intros H. apply andb_true_iff in H. destruct H as [Hp Hrest].
  rewrite map_app, (IH Hrest). f_equal.
  destruct part as [| b | z | s | l | d]; try reflexivity.
  simpl in *. unfold dict_get_or.
  destruct (dict_get "value" d) as [[| | | s | |] |]; try discriminate Hp. reflexivity.
Qed.

(** X11: in a hover list, parts that are neither a string nor a mapping
    are skipped: the result is the texts of the strings and of the
    mappings, joined by a blank line. *)
Theorem hover_list_skips_other_parts (lib : PyLib) (result : pydict) (items : list pyval) :
  dict_get "contents" result = Some (PList items) ->
  items <> [] ->
  forallb plain_part items = true ->
  hover_text lib (PDict result)
  = Ok (PStr (String.concat (newline ++ newline) (flat_map part_texts items))).
Proof.
  intros Hc Hne Hplain. unfold hover_text.
  cbn [is_none py_get py_get_default rbind]. rewrite Hc.
  destruct items as [| part items]; [congruence |]. cbn [py_truthy negb].
  rewrite append_parts_flat, plain_parts_texts by exact Hplain. cbn [app].
  now rewrite str_join_strings.
Qed.

Lemma hover_list_skips_other_parts_witness :
  hover_text sample_lib
    (PDict [("contents", PList [PStr "a"; PInt 7; PNone; PDict [("value", PStr "b")]])])
  = Ok (PStr ("a" ++ newline ++ newline ++ "b")).
Proof.
  apply (hover_list_skips_other_parts sample_lib
           [("contents", PList [PStr "a"; PInt 7; PNone; PDict [("value", PStr "b")]])]
           [PStr "a"; PInt 7; PNone; PDict [("value", PStr "b")]]).
  - reflexivity.
  - discriminate.
  - reflexivity.
Defined.

Lemma str_join_not_string (sep : string) (parts : list pyval) :
  existsb (fun p => negb (is_str p)) parts = true ->
  str_join sep parts = Raise TypeError.
Proof.
  unfold str_join. induction parts as [| p parts IH]; simpl; [discriminate |].
  destruct p as [| b | z | s | l | d]; try reflexivity.
  simpl. intros H. specialize (IH H).
  destruct (comprehension _ parts) as [ss | e]; simpl in *; [discriminate IH | exact IH].
Qed.

Lemma odd_part_not_string (lib : PyLib) (items : list pyval) :
  existsb odd_part items = true ->
  existsb (fun p => negb (is_str p)) (flat_map (append_part lib []) items) = true.
Proof.
  induction items as [| part items IH]; simpl; [discriminate |].
  rewrite existsb_app. intros H. apply orb_true_iff in H. destruct H as [H | H].
  - apply orb_true_iff. left.
    destruct part as [| b | z | s | l | d]; try discriminate H.
    simpl in *. unfold dict_get_or.
    destruct (dict_get "value" d) as [v |]; [| discriminate H]. now rewrite H.
  - apply orb_true_iff. right. exact (IH H).
Qed.

(** X12: a hover list with a mapping whose [value] is there and is no
    string makes the tool raise [TypeError], from joining the parts. *)
Theorem hover_list_value_not_string (lib : PyLib) (result : pydict) (items : list pyval) :
  dict_get "contents" result = Some (PList items) ->
  existsb odd_part items = true ->
  hover_text lib (PDict result) = Raise TypeError.
Proof.
  intros Hc Hodd. unfold hover_text.
  cbn [is_none py_get py_get_default rbind]. rewrite Hc.
  destruct items as [| part items]; [discriminate Hodd |]. cbn [py_truthy negb].
  rewrite append_parts_flat. cbn [app].
  now rewrite str_join_not_string by (apply odd_part_not_string; exact Hodd).
Qed.

Lemma hover_list_value_not_string_witness :
  hover_text sample_lib
    (PDict [("contents", PList [PStr "a"; PDict [("value", PInt 5)]])])
  = Raise TypeError.
Proof.
  apply (hover_list_value_not_string sample_lib
           [("contents", PList [PStr "a"; PDict [("value", PInt 5)]])]
           [PStr "a"; PDict [("value", PInt 5)]]);
    reflexivity.
Defined.

(** ** Entries, one by one *)

Lemma formatted_range_string (rng formatted_range : pyval) :
  (if py_truthy rng then r <- _format_range rng ;; Ok (PStr r) else Ok PNone)
  = Ok formatted_range ->
  formatted_range = PNone \/ is_str formatted_range = true.
Proof.
  intros H. destruct (formatted_range_cases _ _ H) as [-> | [r ->]]; auto.
Qed.

(** The last step of both builders. *)
Lemma entry_layout (d : pydict) (path formatted_range snippet : pyval) (entry : pydict) :
  (if is_none path
   then uri <- py_get (PDict d) "uri" ;;
        Ok (dict_set "uri" uri
              [("relative_path", path); ("range", formatted_range); ("snippet", snippet)])
   else Ok [("relative_path", path); ("range", formatted_range); ("snippet", snippet)])
  = Ok entry ->
  entry = ([("relative_path", path); ("range", formatted_range); ("snippet", snippet)]
           ++ (if is_none path then [("uri", raw_uri (PDict d))] else []))%list.
Proof.
  destruct (is_none path); intros H; now injection H as <-.
Qed.

Lemma definition_entry_shape (lib : PyLib) (project_root : string) (project : Project)
    (raw entry : pyval) :
  definition_entry lib project_root project raw = Ok entry -> entry_shape raw entry.
Proof.
  destruct raw as [| b | z | s | l | d]; try discriminate.
  unfold definition_entry. cbn [py_get py_get_default rbind]. intros H.
  do 4 bind_inv H. injection H as <-. rename x into path.
  exists path, x1, x0. split; [f_equal; exact (entry_layout _ _ _ _ _ Hx2) |].
  split; [exact (formatted_range_string _ _ Hx1) |].
  destruct (is_none path); cbn [negb] in Hx0.
  - injection Hx0 as <-. auto.
  - do 4 bind_inv Hx0. injection Hx0 as <-. split; [now right | discriminate].
Qed.

Lemma reference_entry_shape (lib : PyLib) (project_root : string) (project : Project)
    (raw entry : pyval) :
  reference_entry lib project_root project raw = Ok entry -> entry_shape raw entry.
Proof.
  destruct raw as [| b | z | s | l | d]; try discriminate.
  unfold reference_entry. cbn [py_get py_get_default rbind]. intros H.
  do 4 bind_inv H. injection H as <-. rename x into path.
  exists path, x1, x0. split; [f_equal; exact (entry_layout _ _ _ _ _ Hx2) |].
  split; [exact (formatted_range_string _ _ Hx1) |].
  destruct (is_none path); cbn [negb] in Hx0.
  - injection Hx0 as <-. auto.
  - destruct (py_truthy _) in Hx0.
    + do 3 bind_inv Hx0. injection Hx0 as <-. split; [now right | discriminate].
    + injection Hx0 as <-. split; [now left | discriminate].
Qed.

(** X13: both builders return one entry per raw location, in order, and
    every entry has the keys [relative_path], [range], [snippet], then
    [uri] exactly when the relative path is null; an entry without path
    has no snippet. *)
Theorem entries_follow_locations (lib : PyLib) (project_root : string) (project : Project)
    (raws entries : list pyval) :
  _format_definition_entries lib raws project_root project = Ok entries
  \/ _format_reference_entries lib raws project_root project = Ok entries ->
  List.length entries = List.length raws /\ Forall2 entry_shape raws entries.
Proof.
  intros H.
  assert (Hshape : Forall2 entry_shape raws entries).
  { destruct H as [H | H]; apply for_append_ok in H;
      (eapply Forall2_impl; [| exact H]); intros raw e He.
    - exact (definition_entry_shape _ _ _ _ _ He).
    - exact (reference_entry_shape _ _ _ _ _ He). }
  split; [symmetry; exact (Forall2_length Hshape) | exact Hshape].
Qed.

Lemma entries_follow_locations_witness :
  Forall2 entry_shape sample_locations
    [ PDict [("relative_path", PStr "a.py"); ("range", PStr "1:1-1:5");
             ("snippet", PStr "snippet")];
      PDict [("relative_path", PNone); ("range", PStr "3:1-3:5"); ("snippet", PNone);
             ("uri", PStr "file:///lib/b.py")] ].
Proof.
  apply (entries_follow_locations sample_lib "/proj" sample_project sample_locations).
  right. reflexivity.
Defined.

(** X14: the relative path of an entry.  A [relativePath] that is not
    null is taken as it is and the absolute path is not consulted;
    otherwise a non-null [absolutePath] is made relative to the project
    root; with neither, the path is null and the raw [uri] is kept. *)
Theorem entry_path_resolution (lib : PyLib) (project_root : string) (project : Project)
    (d entry : pydict) :
  definition_entry lib project_root project (PDict d) = Ok (PDict entry)
  \/ reference_entry lib project_root project (PDict d) = Ok (PDict entry) ->
  let rel := dict_get_none "relativePath" d in
  let abs := dict_get_none "absolutePath" d in
  (is_none rel = false -> dict_get "relative_path" entry = Some rel)
  /\ (is_none rel = true -> is_none abs = false ->
      exists p, py_relpath lib abs project_root = Ok p
                /\ dict_get "relative_path" entry = Some (PStr p))
  /\ (is_none rel = true -> is_none abs = true ->
      dict_get "relative_path" entry = Some PNone
      /\ dict_get "uri" entry = Some (dict_get_none "uri" d)).
Proof.
  intros H rel abs.
  assert (Hcore : exists path formatted_range snippet,
             (if is_none rel && negb (is_none abs)
              then p <- py_relpath lib abs project_root ;; Ok (PStr p)
              else Ok rel) = Ok path
             /\ entry = ([("relative_path", path); ("range", formatted_range);
                          ("snippet", snippet)]
                         ++ (if is_none path then [("uri", raw_uri (PDict d))] else []))%list).
  { destruct H as [H | H];
      [unfold definition_entry in H | unfold reference_entry in H];
      cbn [py_get py_get_default rbind] in H;
      fold (dict_get_none "relativePath" d) (dict_get_none "absolutePath" d) in H;
      fold rel abs in H;
      do 4 bind_inv H; injection H as <-;
      exists x, x1, x0; (split; [exact Hx | exact (entry_layout _ _ _ _ _ Hx2)]). }
  destruct Hcore as (path & fr & sn & Hpath & ->).
  split; [| split].
  - intros Hrel. rewrite Hrel in Hpath. now injection Hpath as <-.
  - intros Hrel Habs. rewrite Hrel, Habs in Hpath. cbn [andb negb] in Hpath.
    bind_inv Hpath. injection Hpath as <-. eauto.
  - intros Hrel Habs. rewrite Hrel, Habs in Hpath. injection Hpath as <-.
    rewrite Hrel. destruct rel; try discriminate Hrel. split; reflexivity.
Qed.

Lemma entry_path_resolution_witness :
  exists p, py_relpath sample_lib (PStr "/proj/src/a.py") "/proj" = Ok p
            /\ dict_get "relative_path"
                 [("relative_path", PStr "rel//proj/src/a.py"); ("range", PNone);
                  ("snippet", PNone)]
               = Some (PStr p).
Proof.
  refine (proj1 (proj2 (entry_path_resolution sample_lib "/proj" sample_project
                          [("absolutePath", PStr "/proj/src/a.py")] _ _)) _ _).
  - right. reflexivity.
  - reflexivity.
  - reflexivity.
Defined.

(** X15: where every location with a path also has a range that is not
    empty, find-definitions and find-references build the same entries,
    and fail alike. *)
Theorem builders_agree_on_ranged_locations (lib : PyLib) (project_root : string)
    (project : Project) (raws : list pyval) :
  Forall (fun raw => path_has_range raw = true) raws ->
  _format_definition_entries lib raws project_root project
  = _format_reference_entries lib raws project_root project.
Proof.
  exact (format_entries_agree lib project_root project raws).
Qed.

Lemma builders_agree_on_ranged_locations_witness :
  _format_definition_entries sample_lib sample_locations "/proj" sample_project
  = _format_reference_entries sample_lib sample_locations "/proj" sample_project.
Proof.
  apply (builders_agree_on_ranged_locations sample_lib "/proj" sample_project sample_locations).
  repeat constructor.
Defined.

(** X16: a location with a relative path and a range that is missing or
    empty.  The reference builder returns the entry with null range and
    snippet and does not ask the project; the definition builder raises. *)
Theorem missing_range_splits_builders (lib : PyLib) (project_root : string)
    (project : Project) (d : pydict) :
  is_none (dict_get_none "relativePath" d) = false ->
  py_truthy (dict_get_none "range" d) = false ->
  reference_entry lib project_root project (PDict d)
  = Ok (PDict [("relative_path", dict_get_none "relativePath" d);
               ("range", PNone); ("snippet", PNone)])
  /\ exists e, definition_entry lib project_root project (PDict d) = Raise e
               /\ (e = KeyError "range" \/ e = KeyError "start" \/ e = TypeError).
Proof.
  intros Hrel Hrng. split.
  - unfold reference_entry. cbn [py_get py_get_default rbind].
    fold (dict_get_none "relativePath" d) (dict_get_none "range" d).
    rewrite Hrel. cbn [andb rbind negb]. rewrite Hrel, Hrng. reflexivity.
  - unfold definition_entry. cbn [py_get py_get_default rbind].
    fold (dict_get_none "relativePath" d).
    rewrite Hrel. cbn [andb rbind negb]. rewrite Hrel. cbn [negb].
    unfold py_getitem at 1. unfold dict_get_none in Hrng.
    destruct (dict_get "range" d) as [rng |];
      [| eexists; split; [reflexivity | auto]].
    cbn [rbind].
    destruct rng as [| b | z | s | l | [| kv kvs]]; try discriminate Hrng;
      eexists; (split; [reflexivity | auto]).
Qed.

Lemma missing_range_splits_builders_witness :
  reference_entry sample_lib "/proj" sample_project
    (PDict [("relativePath", PStr "a.py"); ("range", PNone)])
  = Ok (PDict [("relative_path", PStr "a.py"); ("range", PNone); ("snippet", PNone)]).
Proof.
  apply (missing_range_splits_builders sample_lib "/proj" sample_project
           [("relativePath", PStr "a.py"); ("range", PNone)]);
    reflexivity.
Defined.

(** The entry of a location with nothing to show. *)
Lemma blank_entries (lib : PyLib) (project_root : string) (project : Project) (raw : pyval) :
  blank_location raw = true ->
  definition_entry lib project_root project raw
  = Ok (PDict [("relative_path", PNone); ("range", PNone); ("snippet", PNone);
               ("uri", PNone)])
  /\ reference_entry lib project_root project raw
     = Ok (PDict [("relative_path", PNone); ("range", PNone); ("snippet", PNone);
                  ("uri", PNone)]).
Proof.
  destruct raw as [| b | z | s | l | d]; try discriminate.
  unfold blank_location. intros H.
  repeat (apply andb_true_iff in H; destruct H as [H ?]).
  unfold definition_entry, reference_entry. cbn [py_get py_get_default rbind].
  fold (dict_get_none "relativePath" d) (dict_get_none "absolutePath" d)
       (dict_get_none "range" d) (dict_get_none "uri" d).
  destruct (dict_get_none "relativePath" d); try discriminate.
  destruct (dict_get_none "absolutePath" d); try discriminate.
  destruct (dict_get_none "uri" d); try discriminate.
  cbn [is_none andb negb rbind].
  destruct (py_truthy (dict_get_none "range" d)); [discriminate |].
  split; reflexivity.
Qed.

(** X17: locations without path, uri and range leave no trace in the
    output: both builders return an entry of nulls for each, and the
    cleaning pass empties the list. *)
Theorem blank_locations_vanish (lib : PyLib) (project_root : string) (project : Project)
    (raws : list pyval) :
  Forall (fun raw => blank_location raw = true) raws ->
  exists entries,
    _format_definition_entries lib raws project_root project = Ok entries
    /\ _format_reference_entries lib raws project_root project = Ok entries
    /\ List.length entries = List.length raws
    /\ _clean_none_and_empty (PList entries) = PList [].
Proof.
  intros H.
  set (blank := PDict [("relative_path", PNone); ("range", PNone); ("snippet", PNone);
                       ("uri", PNone)]).
  exists (map (fun _ => blank) raws).
  unfold _format_definition_entries, _format_reference_entries.
  rewrite !for_append_comprehension.
  assert (Hboth : comprehension (definition_entry lib project_root project) raws
                  = Ok (map (fun _ => blank) raws)
                  /\ comprehension (reference_entry lib project_root project) raws
                     = Ok (map (fun _ => blank) raws)).
  { induction H as [| raw raws Hraw _ [IHd IHr]]; [split; reflexivity |].
    destruct (blank_entries lib project_root project raw Hraw) as [Hde Hre].
    simpl. rewrite Hde, Hre, IHd, IHr. split; reflexivity. }
  destruct Hboth as [-> ->].
  repeat split; [apply length_map |].
  simpl. f_equal. clear. induction raws as [| raw raws IH]; [reflexivity | exact IH].
Qed.

Lemma blank_locations_vanish_witness :
  exists entries,
    _format_definition_entries sample_lib [PDict []; PDict [("range", PNone)]]
      "/proj" sample_project = Ok entries
    /\ _format_reference_entries sample_lib [PDict []; PDict [("range", PNone)]]
         "/proj" sample_project = Ok entries
    /\ List.length entries = 2%nat
    /\ _clean_none_and_empty (PList entries) = PList [].
Proof.
  apply (blank_locations_vanish sample_lib "/proj" sample_project
           [PDict []; PDict [("range", PNone)]]).
  repeat constructor.
Defined.

(** ** The tools, end to end *)

(** X18: when the server finds no defining symbol, get-defining-symbol
    does not fail: the payload has a null symbol, the definition entries
    and the note, and after the cleaning pass the note is there and the
    symbol key is gone. *)
Theorem defining_symbol_absent (lib : PyLib) (self : Tool) (relative_path : string)
    (line character : Z) (include_body : bool) (ls : LanguageServer)
    (definitions entries : list pyval) :
  _get_language_server self relative_path = Ok ls ->
  request_defining_symbol ls relative_path line character include_body = Ok PNone ->
  request_definition ls relative_path line character = Ok definitions ->
  _format_definition_entries lib definitions (project_root (project self)) (project self)
    = Ok entries ->
  GetDefiningSymbolTool_payload lib self relative_path line character include_body
    = Ok (PDict [("symbol", PNone); ("definitions", PList entries);
                 ("error", PStr "No defining symbol found.")])
  /\ exists cleaned,
       _clean_none_and_empty
         (PDict [("symbol", PNone); ("definitions", PList entries);
                 ("error", PStr "No defining symbol found.")]) = PDict cleaned
       /\ dict_get "symbol" cleaned = None
       /\ dict_get "error" cleaned = Some (PStr "No defining symbol found.").
Proof.
  intros Hls Hsym Hdef Hfmt. split.
  - unfold GetDefiningSymbolTool_payload. rewrite Hls. cbn [rbind].
    rewrite Hsym. cbn [rbind]. rewrite Hdef. cbn [rbind]. rewrite Hfmt. reflexivity.
  - exists ((if keep (_clean_none_and_empty (PList entries))
             then [("definitions", _clean_none_and_empty (PList entries))]
             else [])
            ++ [("error", PStr "No defining symbol found.")])%list.
    simpl. destruct (filter keep (map _clean_none_and_empty entries));
      repeat split; reflexivity.
Qed.

Lemma defining_symbol_absent_witness :
  GetDefiningSymbolTool_payload sample_lib quiet_tool "a.py" 3 4 false
  = Ok (PDict [("symbol", PNone); ("definitions", PList []);
               ("error", PStr "No defining symbol found.")]).
Proof.
  apply (defining_symbol_absent sample_lib quiet_tool "a.py" 3 4 false quiet_server [] []);
    reflexivity.
Defined.

(** X19: the overview of an existing file.  The tool creates the
    retriever, asks for the overview once, and serializes the symbols
    listed under the file's path; when the overview has no such key it
    raises [KeyError]. *)
Theorem overview_of_file (lib : PyLib) (self : Tool) (relative_path : string)
    (max_answer_chars : Z) (retriever : SymbolRetriever)
    (overview : list (string * list pyval)) :
  create_language_server_symbol_retriever self = Ok retriever ->
  os_path_exists lib (os_path_join lib (project_root (project self)) relative_path) = true ->
  os_path_isdir lib (os_path_join lib (project_root (project self)) relative_path) = false ->
  get_symbol_overview retriever relative_path = Ok overview ->
  (assoc_get relative_path overview = None ->
   run (GetSymbolsOverviewTool_apply lib self relative_path max_answer_chars)
   = ([EvCreateRetriever; EvGetSymbolOverview relative_path],
      Raise (KeyError relative_path)))
  /\ (forall result, assoc_get relative_path overview = Some result ->
      run (GetSymbolsOverviewTool_apply lib self relative_path max_answer_chars)
      = ([EvCreateRetriever; EvGetSymbolOverview relative_path],
         (result_str <- _to_output self (PList result) ;;
          _limit_length self result_str max_answer_chars))).
Proof.
  intros Hcreate Hexists Hdir Hoverview.
  unfold GetSymbolsOverviewTool_apply, run, mbind, call, lift.
  rewrite Hcreate, Hexists, Hdir, Hoverview. cbn [negb app].
  split.
  - now intros ->.
  - intros result ->. now destruct (_to_output self (PList result)).
Qed.

Lemma overview_of_file_witness :
  run (GetSymbolsOverviewTool_apply sample_lib sample_tool "a.py" (-1))
  = ([EvCreateRetriever; EvGetSymbolOverview "a.py"], Ok "<output>").
Proof.
  refine (proj2 (overview_of_file sample_lib sample_tool "a.py" (-1) sample_retriever
                   [("a.py", [PDict [("name_path", PStr "f")]])] _ _ _ _)
            [PDict [("name_path", PStr "f")]] _);
    reflexivity.
Defined.

(** X20: find-symbol asks the retriever once, with the parsed kinds; an
    empty kind list is passed as no filter, and an empty match is
    serialized as the empty list, not raised. *)
Theorem find_symbol_single_search (self : Tool) (name_path_pattern : string) (depth : Z)
    (relative_path : string) (include_body : bool) (include_kinds exclude_kinds : list Z)
    (substring_matching : bool) (max_answer_chars : Z)
    (incl excl : option (list SymbolKind)) (retriever : SymbolRetriever)
    (symbols : list LanguageServerSymbol) :
  parse_kinds include_kinds = Ok incl ->
  parse_kinds exclude_kinds = Ok excl ->
  create_language_server_symbol_retriever self = Ok retriever ->
  find_by_name retriever name_path_pattern incl excl substring_matching relative_path
    = Ok symbols ->
  let outcome := run (FindSymbolTool_apply self name_path_pattern depth relative_path
                        include_body include_kinds exclude_kinds substring_matching
                        max_answer_chars) in
  fst outcome
  = [EvCreateRetriever;
     EvFindByName name_path_pattern incl excl substring_matching relative_path]
  /\ (include_kinds = [] -> incl = None)
  /\ (exclude_kinds = [] -> excl = None)
  /\ (symbols = [] ->
      snd outcome = (result <- _to_output self (PList []) ;;
                     _limit_length self result max_answer_chars)).
Proof.
  intros Hincl Hexcl Hcreate Hfind outcome. subst outcome.
  unfold FindSymbolTool_apply, FindSymbolTool_symbol_dicts, run, mbind, call, lift.
  rewrite Hincl, Hexcl, Hcreate, Hfind. cbn [app].
  repeat split.
  - destruct (comprehension _ symbols); [| reflexivity].
    now destruct (_to_output self _).
  - intros ->. simpl in Hincl. now injection Hincl.
  - intros ->. simpl in Hexcl. now injection Hexcl.
  - intros ->. simpl. now destruct (_to_output self (PList [])).
Qed.

Lemma find_symbol_single_search_witness :
  fst (run (FindSymbolTool_apply sample_tool "f" 0 "" false [12; 6] [] false (-1)))
  = [EvCreateRetriever; EvFindByName "f" (Some [Function_; Method]) None false ""].
Proof.
  apply (find_symbol_single_search sample_tool "f" 0 "" false [12; 6] [] false (-1)
           (Some [Function_; Method]) None sample_retriever
           [sample_symbol "f" (Some "a.py")]);
    reflexivity.
Defined.

(** X21: the kind lists are parsed as a whole: parsing returns exactly
    when every value lies between 1 and 26, with one kind per value, and
    raises [ValueError] otherwise. *)
Theorem parse_kinds_all_or_nothing (kinds : list Z) :
  (forallb valid_kind kinds = true ->
   exists parsed, parse_kinds kinds = Ok parsed
     /\ match parsed with
        | None => kinds = []
        | Some ks => kinds <> [] /\ List.length ks = List.length kinds
        end)
  /\ (forallb valid_kind kinds = false -> parse_kinds kinds = Raise ValueError).
Proof.
  split.
  - intros Hall. destruct kinds as [| k kinds]; [exists None; split; reflexivity |].
    unfold parse_kinds.
    destruct (comprehension_kinds (k :: kinds)) as [[_ [ks Hks]] | [Hex _]].
    + rewrite Hks. exists (Some ks). split; [reflexivity |]. split; [discriminate |].
      apply comprehension_ok in Hks. symmetry. exact (Forall2_length Hks).
    + exfalso. rewrite forallb_forall in Hall. apply Exists_exists in Hex.
      destruct Hex as (x & Hin & Hout). specialize (Hall x Hin).
      unfold valid_kind in Hall. apply andb_true_iff in Hall. destruct Hall as [Hlo Hhi].
      apply Z.leb_le in Hlo, Hhi. lia.
  - intros Hsome. destruct kinds as [| k kinds]; [discriminate Hsome |].
    unfold parse_kinds.
    destruct (comprehension_kinds (k :: kinds)) as [[Hall _] | [_ ->]]; [| reflexivity].
    exfalso. rewrite Forall_forall in Hall. rewrite <- forallb_forall in Hall.
    congruence.
Qed.

Lemma parse_kinds_all_or_nothing_witness :
  exists parsed, parse_kinds [5; 12] = Ok parsed
    /\ match parsed with
       | None => [5; 12] = []
       | Some ks => [5; 12] <> [] /\ List.length ks = List.length [5; 12]
       end.
Proof.
  apply (parse_kinds_all_or_nothing [5; 12]). reflexivity.
Defined.

